(** * Passwordless authentication of bibus (main-back)

    A shallow embedding of the authentication controller
    ([AuthController]: register, requestToken, login, logout), of the
    functional [register] handler and of the [onRequest] authentication
    hook installed in [fastify-app.ts], followed by the properties of the
    engine: one-time use of temp tokens, revocation, the shape of the
    responses and the behaviour of the inbound gate. *)

From Stdlib Require Import String Ascii List Bool Arith Lia.
From Stdlib Require Import DecimalString DecimalNat.
Import ListNotations.
Local Open Scope string_scope.
Local Open Scope list_scope.

(* ================================================================== *)
(** ** JavaScript string primitives used by the hook *)

Module JS.

(** [s.includes(sub)]: [sub] occurs somewhere in [s]. *)
Fixpoint includes (sub s : string) : bool :=
  String.prefix sub s ||
  match s with
  | EmptyString => false
  | String _ rest => includes sub rest
  end.

(** [s.split(sep)] for a non-empty separator (the only call site passes
    ["Bearer "]): the pieces of [s] between the successive occurrences of
    [sep], scanned from the left without overlap.  [cur] is the piece
    being read and [skip] the number of characters of a matched separator
    still to be passed over. *)
Fixpoint split_from (sep s cur : string) (skip : nat) : list string :=
  match s with
  | EmptyString => [cur]
  | String c rest =>
      match skip with
      | S k => split_from sep rest cur k
      | O =>
          if String.prefix sep s
          then cur :: split_from sep rest EmptyString (String.length sep - 1)
          else split_from sep rest (cur ++ String c EmptyString) 0
      end
  end.

Definition split (sep s : string) : list string :=
  split_from sep s EmptyString 0.

End JS.

(* ================================================================== *)
(** ** Errors *)

(** [Error message] is [throw new Error(message)] of the source.  The other
    constructors are the failures of the collaborators the controller does
    not catch: [DeliveryError] is the rejection of the email sender,
    [InvalidSignature] the failure of [JWTToken.verify], [TypeError] the
    read of a property of [undefined]. *)
Inductive error : Type :=
| Error (message : string)
| DeliveryError
| InvalidSignature
| TypeError.

(** The error kinds of the design, as the source throws them. *)
Definition ConflictError (email : string) : error :=
  Error ("User with email " ++ email ++ " already exist").

Definition InvalidTokenError (tempToken : string) : error :=
  Error ("There is no unused token with id " ++ tempToken).

Definition PermissionDeniedError : error :=
  Error "Permission denied".

(* ================================================================== *)
(** ** Entities and the persistent store *)

(** Modelled from the spec: the entities of models/user, models/user-email,
    models/temp-token and models/jwt-token, which are not under src/, with
    the attributes of the data model.  An email is known by its value, a
    token and a session credential by their id; [userEmail] and [user]
    are the references to the owner. *)
Module Entity.

Module User.
(** Modelled from the spec: the entity of models/user, the identity
    root. *)
Record t : Type := mk { id : string }.
End User.

Module UserEmail.
(** Modelled from the spec: the entity of models/user-email, an address,
    its main flag and the user who owns it. *)
Record t : Type := mk { value : string; main : bool; user : string }.
End UserEmail.

Module TempToken.
(** Modelled from the spec: the entity of models/temp-token, a
    single-use token, its used flag and the email that owns it. *)
Record t : Type := mk { id : string; used : bool; userEmail : string }.
End TempToken.

Module JwtToken.
(** Modelled from the spec: the entity of models/jwt-token, the session
    credential behind a signed token, its active flag and the user who
    owns it. *)
Record t : Type := mk { id : string; activeFlag : bool; user : string }.
End JwtToken.

End Entity.

(** Modelled from the spec: the persistent store behind the models.  The
    tables, each in order of creation (the creation timestamps of the rows
    are kept as their positions), the supply of identifiers and the
    messages handed to the email collaborator. *)
Record World : Type := mkWorld {
  users : list Entity.User.t;
  userEmails : list Entity.UserEmail.t;
  tempTokens : list Entity.TempToken.t;
  jwtTokens : list Entity.JwtToken.t;
  nextId : nat;
  outbox : list (string * string)
}.

Definition emptyWorld : World := mkWorld [] [] [] [] 0 [].

(* ================================================================== *)
(** ** Asynchronous code: state and exceptions *)

Definition M (A : Type) : Type := World -> (error + A) * World.

Definition ret {A : Type} (a : A) : M A := fun w => (inr a, w).

Definition throw {A : Type} (e : error) : M A := fun w => (inl e, w).

Definition bind {A B : Type} (m : M A) (k : A -> M B) : M B :=
  fun w =>
    match m w with
    | (inl e, w') => (inl e, w')
    | (inr a, w') => k a w'
    end.

Definition get : M World := fun w => (inr w, w).

Definition modify (f : World -> World) : M unit := fun w => (inr tt, f w).

Declare Scope async_scope.
Delimit Scope async_scope with async.
Notation "x <- m ;; k" := (bind m (fun x => k))
  (at level 100, m at next level, right associativity) : async_scope.
Notation "m ;;; k" := (bind m (fun _ => k))
  (at level 100, right associativity) : async_scope.
Local Open Scope async_scope.

(* ================================================================== *)
(** ** Identifiers *)

(** Modelled from the spec: the [v4] generator of package uuid, which is not
    under src/.  Identifiers are opaque and never repeat: the n-th
    identifier drawn is the decimal numeral of n. *)
Definition uuid (n : nat) : string :=
  NilEmpty.string_of_uint (Nat.to_uint n).

Definition v4 : M string :=
  fun w =>
    (inr (uuid (nextId w)),
     mkWorld (users w) (userEmails w) (tempTokens w) (jwtTokens w)
             (S (nextId w)) (outbox w)).

(* ================================================================== *)
(** ** Updates of the store *)

Definition set_users (f : list Entity.User.t -> list Entity.User.t)
    (w : World) : World :=
  mkWorld (f (users w)) (userEmails w) (tempTokens w) (jwtTokens w)
          (nextId w) (outbox w).

Definition set_userEmails
    (f : list Entity.UserEmail.t -> list Entity.UserEmail.t)
    (w : World) : World :=
  mkWorld (users w) (f (userEmails w)) (tempTokens w) (jwtTokens w)
          (nextId w) (outbox w).

Definition set_tempTokens
    (f : list Entity.TempToken.t -> list Entity.TempToken.t)
    (w : World) : World :=
  mkWorld (users w) (userEmails w) (f (tempTokens w)) (jwtTokens w)
          (nextId w) (outbox w).

Definition set_jwtTokens
    (f : list Entity.JwtToken.t -> list Entity.JwtToken.t)
    (w : World) : World :=
  mkWorld (users w) (userEmails w) (tempTokens w) (f (jwtTokens w))
          (nextId w) (outbox w).

Definition set_outbox (f : list (string * string) -> list (string * string))
    (w : World) : World :=
  mkWorld (users w) (userEmails w) (tempTokens w) (jwtTokens w)
          (nextId w) (f (outbox w)).

(** The most recently created row that satisfies [p]. *)
Definition find_last {A : Type} (p : A -> bool) (rows : list A) : option A :=
  find p (rev rows).

(* ================================================================== *)
(** ** The models (models/user-email, models/temp-token, models/user) *)

Module UserEmail.

(** Modelled from the spec: [UserEmail.checkEmailExist] of
    models/user-email, which is not under src/; it is [emailExists], the
    existence check of an address across all users. *)
Definition checkEmailExist (value : string) : M bool :=
  w <- get ;;
  ret (existsb (fun e => Entity.UserEmail.value e =? value) (userEmails w)).

(** [UserEmail.findOne({where: {main, value}, relations: ["user"]})], the
    query of the ORM: the first row that matches both columns. *)
Definition findOne (where_main : bool) (where_value : string)
  : M (option Entity.UserEmail.t) :=
  w <- get ;;
  ret (find (fun e => Bool.eqb (Entity.UserEmail.main e) where_main
                      && (Entity.UserEmail.value e =? where_value))
            (userEmails w)).

End UserEmail.

Module TempToken.

(** The temp tokens joined with the email that owns them
    (relation [userEmail]). *)
Definition withUserEmail (w : World)
  : list (Entity.TempToken.t * Entity.UserEmail.t) :=
  flat_map
    (fun t =>
       map (pair t)
           (filter (fun e => Entity.UserEmail.value e
                             =? Entity.TempToken.userEmail t)
                   (userEmails w)))
    (tempTokens w).

(** [TempToken.findOne({where: {id, used, userEmail: {value, main}},
    relations: ["userEmail", "userEmail.user"]})], the query of the ORM:
    the first token, with its email, that matches the four columns. *)
Definition findOne (where_id : string) (where_used : bool)
    (where_value : string) (where_main : bool)
  : M (option (Entity.TempToken.t * Entity.UserEmail.t)) :=
  w <- get ;;
  ret (find (fun te =>
               (Entity.TempToken.id (fst te) =? where_id)
               && Bool.eqb (Entity.TempToken.used (fst te)) where_used
               && (Entity.UserEmail.value (snd te) =? where_value)
               && Bool.eqb (Entity.UserEmail.main (snd te)) where_main)
            (withUserEmail w)).

End TempToken.

Module JwtToken.

(** Modelled from the spec: [active()] of models/jwt-token, which is not
    under src/; a session credential is live while its flag is set. *)
Definition active (j : Entity.JwtToken.t) : bool :=
  Entity.JwtToken.activeFlag j.

End JwtToken.

Module User.

(** [User.findOne({where: {id}})], the query of the ORM: the row of the
    user with this id. *)
Definition findOne (where_id : string) : M (option Entity.User.t) :=
  w <- get ;;
  ret (find (fun u => Entity.User.id u =? where_id) (users w)).

(** Modelled from the spec: [User.registerUser] of models/user, which is
    not under src/; it is [createUser] followed by [issueToken]: a new
    user, one email marked main and one unused token bound to it. *)
Definition registerUser (email : string) : M Entity.User.t :=
  userId <- v4 ;;
  tokenId <- v4 ;;
  modify (set_users (fun l => l ++ [Entity.User.mk userId])) ;;;
  modify (set_userEmails
            (fun l => l ++ [Entity.UserEmail.mk email true userId])) ;;;
  modify (set_tempTokens
            (fun l => l ++ [Entity.TempToken.mk tokenId false email])) ;;;
  ret (Entity.User.mk userId).

(** Modelled from the spec: [save] of models/user, which is not under
    src/.  The rows a user owns are written by the operations that create
    or change them; [save] writes the row of the user when the table does
    not hold it yet. *)
Definition save (user : Entity.User.t) : M unit :=
  modify (set_users
            (fun l =>
               if existsb
                    (fun u => Entity.User.id u =? Entity.User.id user) l
               then l else l ++ [user])).

(** Modelled from the spec: [mainEmail] of models/user, which is not
    under src/; the email of the user marked main, if any. *)
Definition mainEmail (user : Entity.User.t)
  : M (option Entity.UserEmail.t) :=
  w <- get ;;
  ret (find (fun e => (Entity.UserEmail.user e =? Entity.User.id user)
                      && Entity.UserEmail.main e)
            (userEmails w)).

(** Modelled from the spec: [lastTempToken] of models/user, which is not
    under src/; the most recently created token of the main email. *)
Definition lastTempToken (user : Entity.User.t)
  : M (option Entity.TempToken.t) :=
  email <- mainEmail user ;;
  match email with
  | None => ret None
  | Some e =>
      w <- get ;;
      ret (find_last
             (fun t => Entity.TempToken.userEmail t
                       =? Entity.UserEmail.value e)
             (tempTokens w))
  end.

(** Modelled from the spec: [createNewToken] of models/user, which is not
    under src/; it is [issueToken]: a new unused token bound to the main
    email, prior tokens untouched.  A user without a main email cannot
    receive a token. *)
Definition createNewToken (user : Entity.User.t) : M unit :=
  email <- mainEmail user ;;
  match email with
  | None => throw TypeError
  | Some e =>
      tokenId <- v4 ;;
      modify (set_tempTokens
                (fun l => l ++ [Entity.TempToken.mk tokenId false
                                  (Entity.UserEmail.value e)]))
  end.

(** Modelled from the spec: [loginByTempToken] of models/user, which is
    not under src/; the token is marked used ([consumeToken]) and a new
    active session credential is created for the user ([openSession]). *)
Definition loginByTempToken (user : Entity.User.t)
    (tempToken : Entity.TempToken.t) : M unit :=
  modify (set_tempTokens
            (map (fun t =>
                    if Entity.TempToken.id t =? Entity.TempToken.id tempToken
                    then Entity.TempToken.mk (Entity.TempToken.id t) true
                           (Entity.TempToken.userEmail t)
                    else t))) ;;;
  jwtId <- v4 ;;
  modify (set_jwtTokens
            (fun l => l ++ [Entity.JwtToken.mk jwtId true
                              (Entity.User.id user)])).

(** Modelled from the spec: [lastJwtToken] of models/user, which is not
    under src/; the most recently created session credential of the
    user. *)
Definition lastJwtToken (user : Entity.User.t)
  : M (option Entity.JwtToken.t) :=
  w <- get ;;
  ret (find_last
         (fun j => Entity.JwtToken.user j =? Entity.User.id user)
         (jwtTokens w)).

(** Modelled from the spec: [revokeAll(userId)] of the session registry:
    every credential of the user is marked inactive. *)
Definition revokeAll (userId : string)
    (l : list Entity.JwtToken.t) : list Entity.JwtToken.t :=
  map (fun j =>
         if Entity.JwtToken.user j =? userId
         then Entity.JwtToken.mk (Entity.JwtToken.id j) false
                (Entity.JwtToken.user j)
         else j) l.

(** Modelled from the spec: [logout] of models/user, which is not under
    src/.  The logout of the spec revokes the credential of the call.  The
    method receives the user alone: the call site hands it no credential,
    and the hook leaves none in the request.  The model revokes the
    credential of the call by revoking the credentials of the user; which
    others it revokes is not used: what is proved through this body is that
    the credential of the call is revoked, that nothing is reactivated and
    that the method does not throw.  What the handler does whatever this
    body is stands in [logoutWith]. *)
Definition logout (user : Entity.User.t) : M unit :=
  modify (set_jwtTokens (revokeAll (Entity.User.id user))).

(** Modelled from the spec: [jwtTokenById] of models/user, which is not
    under src/; the credential with this id among those of the user. *)
Definition jwtTokenById (user : Entity.User.t) (id : string)
  : M (option Entity.JwtToken.t) :=
  w <- get ;;
  ret (find (fun j => (Entity.JwtToken.id j =? id)
                      && (Entity.JwtToken.user j =? Entity.User.id user))
            (jwtTokens w)).

End User.

(* ================================================================== *)
(** ** Collaborators: responses, signed credentials, email *)

Module SuccessResponse.

(** Modelled from the spec: the success envelope [{requestId, data?}] of
    utils/responses, which is not under src/.  [data] is a JSON object,
    kept as its list of fields. *)
Record t : Type := mk {
  requestId : string;
  data : option (list (string * string))
}.

Definition create (id : string) (data : option (list (string * string)))
  : t := mk id data.

End SuccessResponse.

Module JWTToken.

Record Payload : Type := mkPayload {
  id : string;
  userId : string;
  userEmail : string
}.

(** The signer of utils/jwt-tokens, which is not under src/: any pair of
    a signing and a verifying function.  [verify] returns the claims or
    throws. *)
Class Lib : Type := {
  sign : string -> Payload -> string;
  verify : string -> string -> error + Payload
}.

End JWTToken.

Module EmailSender.

(** Modelled from the spec: the email collaborator behind the type
    [EmailSender] of the controller,
    [send(message, address) -> Result<(), DeliveryError>]: it accepts a
    message or rejects it. *)
Record t : Type := mk { accepts : string -> string -> bool }.

(** [emailSender.sendEmail(message, email)]: an accepted message is on
    its way, a rejected one throws [DeliveryError]. *)
Definition sendEmail (sender : t) (message email : string) : M unit :=
  if accepts sender message email
  then modify (set_outbox (fun l => l ++ [(message, email)]))
  else throw DeliveryError.

End EmailSender.

(* ================================================================== *)
(** ** Requests *)

Module FastifyRequest.

(** [userId] is the field declared on [FastifyRequest] by
    fastify-app.ts; [app.decorateRequest("userId", "")] makes it the
    empty string on arrival. *)
Record t (Body : Type) : Type := mk {
  id : string;
  url : string;
  headers_authorization : option string;
  userId : option string;
  body : Body
}.

Arguments mk {Body}.
Arguments id {Body}.
Arguments url {Body}.
Arguments headers_authorization {Body}.
Arguments userId {Body}.
Arguments body {Body}.

Definition set_userId {Body : Type} (request : t Body) (v : string)
  : t Body :=
  mk (id request) (url request) (headers_authorization request)
     (Some v) (body request).

End FastifyRequest.

(** The bodies of controllers/auth.req-res. *)
Record AuthRegisterBody : Type := mkRegisterBody { register_email : string }.

Record AuthRequestTokenBody : Type :=
  mkRequestTokenBody { requestToken_email : string }.

Record AuthLoginBody : Type := mkLoginBody {
  login_email : string;
  login_tempToken : string
}.

(* ================================================================== *)
(** ** The authentication controller *)

Module AuthController.

(** The controller is built from the email sender and the signing key
    (its logger is never called). *)
Record t : Type := mk {
  emailSender : EmailSender.t;
  privateKey : string
}.

Section Methods.

Context {jwt : JWTToken.Lib}.
Variable this : t.

Definition register (request : FastifyRequest.t AuthRegisterBody)
  : M SuccessResponse.t :=
  (* . Check email *)
  exists_ <- UserEmail.checkEmailExist
               (register_email (FastifyRequest.body request)) ;;
  if (exists_ : bool) then
    throw (Error ("User with email "
                  ++ register_email (FastifyRequest.body request)
                  ++ " already exist"))
  else
    (* . Create new user, email and passwordless token *)
    user <- User.registerUser
              (register_email (FastifyRequest.body request)) ;;
    User.save user ;;;
    (* . Send token to email *)
    token <- User.lastTempToken user ;;
    email <- User.mainEmail user ;;
    match token, email with
    | Some token, Some email =>
        EmailSender.sendEmail (emailSender this)
          ("Your token is " ++ Entity.TempToken.id token)
          (Entity.UserEmail.value email) ;;;
        (* . Return User *)
        ret (SuccessResponse.create (FastifyRequest.id request) None)
    | _, _ => throw (Error "Something went wrong")
    end.

Definition requestToken
    (request : FastifyRequest.t AuthRequestTokenBody)
  : M SuccessResponse.t :=
  (* . Get user email for token *)
  userEmail <- UserEmail.findOne true
                 (requestToken_email (FastifyRequest.body request)) ;;
  match userEmail with
  | None => ret (SuccessResponse.create (FastifyRequest.id request) None)
  | Some userEmail =>
      let user := Entity.User.mk (Entity.UserEmail.user userEmail) in
      (* . Create new token *)
      User.createNewToken user ;;;
      (* . Get this last token *)
      token <- User.lastTempToken user ;;
      match token with
      | None => throw (Error "There is no token")
      | Some token =>
          (* . Send email with token *)
          email <- User.mainEmail user ;;
          match email with
          | None => throw TypeError
          | Some email =>
              EmailSender.sendEmail (emailSender this)
                ("Your token is " ++ Entity.TempToken.id token)
                (Entity.UserEmail.value email) ;;;
              (* . Success *)
              ret (SuccessResponse.create (FastifyRequest.id request) None)
          end
      end
  end.

Definition login (request : FastifyRequest.t AuthLoginBody)
  : M SuccessResponse.t :=
  (* . Get temp token with user *)
  tempToken <- TempToken.findOne
                 (login_tempToken (FastifyRequest.body request))
                 false
                 (login_email (FastifyRequest.body request))
                 true ;;
  match tempToken with
  | None =>
      throw (Error ("There is no unused token with id "
                    ++ login_tempToken (FastifyRequest.body request)))
  | Some (tempToken, userEmail) =>
      (* . Login *)
      let user := Entity.User.mk (Entity.UserEmail.user userEmail) in
      User.loginByTempToken user tempToken ;;;
      User.save user ;;;
      (* . Create JWT for User *)
      jwtToken <- User.lastJwtToken user ;;
      match jwtToken with
      | None => throw (Error "No JWT Token")
      | Some jwtToken =>
          (* . Send JWT *)
          email <- User.mainEmail user ;;
          match email with
          | None => throw TypeError
          | Some email =>
              ret (SuccessResponse.create (FastifyRequest.id request)
                     (Some [("token",
                             JWTToken.sign (privateKey this)
                               (JWTToken.mkPayload
                                  (Entity.JwtToken.id jwtToken)
                                  (Entity.User.id user)
                                  (Entity.UserEmail.value email)))]))
          end
      end
  end.

Definition logout (request : FastifyRequest.t unit)
  : M SuccessResponse.t :=
  (* . Check auth: [!request.userId] holds of [undefined] and of the
     empty string *)
  match FastifyRequest.userId request with
  | Some (String c s) =>
      (* . Get User *)
      user <- User.findOne (String c s) ;;
      match user with
      | None => throw (Error "User must be")
      | Some user =>
          (* . Logout *)
          User.logout user ;;;
          (* . Success *)
          ret (SuccessResponse.create (FastifyRequest.id request) None)
      end
  | _ => throw (Error "Permission denied")
  end.

End Methods.

End AuthController.

(* ================================================================== *)
(** ** The register handler (controllers/auth/register/handler.ts) *)

Module RegisterHandler.

Definition register (emailSender : EmailSender.t)
    (request : FastifyRequest.t AuthRegisterBody)
  : M SuccessResponse.t :=
  exists_ <- UserEmail.checkEmailExist
               (register_email (FastifyRequest.body request)) ;;
  if (exists_ : bool) then
    throw (Error ("User with email "
                  ++ register_email (FastifyRequest.body request)
                  ++ " already exist"))
  else
    (* . Create new user, email and passwordless token *)
    user <- User.registerUser
              (register_email (FastifyRequest.body request)) ;;
    User.save user ;;;
    (* . Send token to email *)
    token <- User.lastTempToken user ;;
    email <- User.mainEmail user ;;
    match token, email with
    | Some token, Some email =>
        EmailSender.sendEmail emailSender
          ("Your token is " ++ Entity.TempToken.id token)
          (Entity.UserEmail.value email) ;;;
        ret (SuccessResponse.create (FastifyRequest.id request) None)
    | _, _ => throw (Error "Something went wrong")
    end.

End RegisterHandler.

(* ================================================================== *)
(** ** The authentication hook (fastify-app.ts) *)

Module FastifyApp.

(** The part of [config] the hook reads. *)
Record Config : Type := mkConfig { jwtToken_secret : string }.

(** [app.decorateRequest("userId", "")]: the field is the empty string
    when a request arrives. *)
Definition decorateRequest {Body : Type} (request : FastifyRequest.t Body)
  : FastifyRequest.t Body :=
  FastifyRequest.set_userId request EmptyString.

Section Hook.

Context {jwt : JWTToken.Lib}.
Variable config : Config.

(** The [onRequest] hook of the authenticated routes.  It returns the
    request as the handlers receive it.  [!headerToken] and [!token]
    hold of [undefined] and of the empty string: the two matches on
    [Some (String _ _)] are their negations. *)
Definition onRequest {Body : Type} (request : FastifyRequest.t Body)
  : M (FastifyRequest.t Body) :=
  if JS.includes "documentation" (FastifyRequest.url request)
     || JS.includes "health" (FastifyRequest.url request)
  then ret request
  else
    let headerToken := FastifyRequest.headers_authorization request in
    match headerToken with
    | Some (String c s) =>
        let token := nth_error (JS.split "Bearer " (String c s)) 1 in
        match token with
        | Some (String c' s') =>
            match JWTToken.verify (jwtToken_secret config)
                    (String c' s') with
            | inl e => throw e
            | inr decoded =>
                user <- User.findOne (JWTToken.userId decoded) ;;
                match user with
                | None => throw (Error "Permission denied")
                | Some user =>
                    jwtToken <- User.jwtTokenById user
                                  (JWTToken.id decoded) ;;
                    match jwtToken with
                    | None => throw (Error "Permission denied")
                    | Some jwtToken =>
                        if negb (JwtToken.active jwtToken)
                        then throw (Error "Permission denied")
                        else
                          ret (FastifyRequest.set_userId request
                                 (Entity.User.id user))
                    end
                end
            end
        | _ => throw (Error "Permission denied")
        end
    | _ => throw (Error "Permission denied")
    end.

(** A route registered under the hook: the hook runs on the request
    as it arrives, then the handler runs on the request the hook
    returns. *)
Definition authenticated {Body A : Type}
    (handler : FastifyRequest.t Body -> M A)
    (request : FastifyRequest.t Body) : M A :=
  request' <- onRequest (decorateRequest request) ;;
  handler request'.

End Hook.

End FastifyApp.

(* ================================================================== *)
(** ** A reference signer *)

Module ReferenceJWT.

(** Modelled from the spec: [JWTToken] of utils/jwt-tokens, which is not
    under src/.  [sign] is deterministic over the claim set; [verify]
    returns the claims or fails with [InvalidSignature] on a bad
    signature or a malformed structure.  The token is the key and the
    claims written one after the other, a stand-in for the MAC. *)
Definition sign (secret : string) (p : JWTToken.Payload) : string :=
  secret ++ "|" ++ JWTToken.id p ++ "|" ++ JWTToken.userId p
         ++ "|" ++ JWTToken.userEmail p.

Definition verify (secret token : string) : error + JWTToken.Payload :=
  match JS.split "|" token with
  | [k; i; u; e] =>
      if k =? secret then inr (JWTToken.mkPayload i u e)
      else inl InvalidSignature
  | _ => inl InvalidSignature
  end.

Definition lib : JWTToken.Lib := JWTToken.Build_Lib sign verify.

End ReferenceJWT.

(* ================================================================== *)
(** ** Histories of requests *)

Section Server.

Context {jwt : JWTToken.Lib}.
Variable controller : AuthController.t.
Variable config : FastifyApp.Config.

(** The requests to the engine: the three open routes of the
    controller, the register handler, logout behind the hook, and a
    request to another route behind the hook, of which the hook alone is
    run (the handlers of the profile routes are outside the engine). *)
Inductive call : Type :=
| CallRegister (request : FastifyRequest.t AuthRegisterBody)
| CallRegisterHandler (request : FastifyRequest.t AuthRegisterBody)
| CallRequestToken (request : FastifyRequest.t AuthRequestTokenBody)
| CallLogin (request : FastifyRequest.t AuthLoginBody)
| CallLogout (request : FastifyRequest.t unit)
| CallAuthenticated (request : FastifyRequest.t unit).

(** The store after one request, whatever its outcome. *)
Definition perform (c : call) (w : World) : World :=
  match c with
  | CallRegister request =>
      snd (AuthController.register controller request w)
  | CallRegisterHandler request =>
      snd (RegisterHandler.register
             (AuthController.emailSender controller) request w)
  | CallRequestToken request =>
      snd (AuthController.requestToken controller request w)
  | CallLogin request =>
      snd (AuthController.login controller request w)
  | CallLogout request =>
      snd (FastifyApp.authenticated config
             AuthController.logout request w)
  | CallAuthenticated request =>
      snd (FastifyApp.authenticated config (fun _ => ret tt) request w)
  end.

(** The store after a history of requests, handled one after the
    other. *)
Definition after (calls : list call) (w : World) : World :=
  fold_left (fun w c => perform c w) calls w.

End Server.

(** [AuthController.logout] over any implementation of the method
    [user.logout()] of models/user, which is not under src/. *)
Definition logoutWith (userLogout : Entity.User.t -> M unit)
    (request : FastifyRequest.t unit) : M SuccessResponse.t :=
  match FastifyRequest.userId request with
  | Some (String c s) =>
      user <- User.findOne (String c s) ;;
      match user with
      | None => throw (Error "User must be")
      | Some user =>
          userLogout user ;;;
          ret (SuccessResponse.create (FastifyRequest.id request) None)
      end
  | _ => throw (Error "Permission denied")
  end.

(** The token a request bears: what the hook reads after ["Bearer "]. *)
Definition bearer {Body : Type} (request : FastifyRequest.t Body)
  : option string :=
  match FastifyRequest.headers_authorization request with
  | Some h => nth_error (JS.split "Bearer " h) 1
  | None => None
  end.

(** The URL is subject to the checks of the hook. *)
Definition gated (url : string) : bool :=
  negb (JS.includes "documentation" url || JS.includes "health" url).

(* ================================================================== *)
(** ** Well-formed stores *)

(** [s] was drawn from the generator. *)
Definition issued (w : World) (s : string) : Prop :=
  exists k, k < nextId w /\ s = uuid k.

(** Every identifier the store refers to was drawn from the generator. *)
Record wf (w : World) : Prop := mkWf {
  wf_emails : Forall (fun e => issued w (Entity.UserEmail.user e))
                     (userEmails w);
  wf_tokens : Forall (fun t => issued w (Entity.TempToken.id t))
                     (tempTokens w);
  wf_jwts : Forall (fun j => issued w (Entity.JwtToken.id j))
                   (jwtTokens w)
}.

(** The elementary changes of the store.  A token and a session
    credential come into being with an identifier drawn for them. *)
Inductive change : World -> World -> Prop :=
| change_draw w :
    change w (mkWorld (users w) (userEmails w) (tempTokens w) (jwtTokens w)
                      (S (nextId w)) (outbox w))
| change_user w u :
    change w (set_users (fun l => l ++ [u]) w)
| change_email w e :
    issued w (Entity.UserEmail.user e) ->
    change w (set_userEmails (fun l => l ++ [e]) w)
| change_token w email :
    change w (mkWorld (users w) (userEmails w)
                      (tempTokens w
                       ++ [Entity.TempToken.mk (uuid (nextId w)) false email])
                      (jwtTokens w) (S (nextId w)) (outbox w))
| change_use w tokenId :
    change w (set_tempTokens
                (map (fun t =>
                        if Entity.TempToken.id t =? tokenId
                        then Entity.TempToken.mk (Entity.TempToken.id t) true
                               (Entity.TempToken.userEmail t)
                        else t)) w)
| change_jwt w userId :
    change w (mkWorld (users w) (userEmails w) (tempTokens w)
                      (jwtTokens w
                       ++ [Entity.JwtToken.mk (uuid (nextId w)) true userId])
                      (S (nextId w)) (outbox w))
| change_revoke w userId :
    change w (set_jwtTokens (User.revokeAll userId) w)
| change_send w m :
    change w (set_outbox (fun l => l ++ [m]) w).

(** Any number of elementary changes. *)
Inductive changes : World -> World -> Prop :=
| changes_refl w : changes w w
| changes_step w1 w2 w3 : changes w1 w2 -> change w2 w3 -> changes w1 w3.

(** All the tokens with this id are used, and the id cannot be drawn
    again. *)
Definition consumed (tokenId : string) (w : World) : Prop :=
  issued w tokenId /\
  Forall (fun t => Entity.TempToken.id t = tokenId ->
                   Entity.TempToken.used t = true) (tempTokens w).


(** The store once [registerUser] and [save] have run. *)
Definition registered (email : string) (w : World) : World :=
  mkWorld (users w ++ [Entity.User.mk (uuid (nextId w))])
          (userEmails w ++ [Entity.UserEmail.mk email true (uuid (nextId w))])
          (tempTokens w
           ++ [Entity.TempToken.mk (uuid (S (nextId w))) false email])
          (jwtTokens w) (S (S (nextId w))) (outbox w).

(** The store once a token has been issued for an address. *)
Definition issue (email : string) (w : World) : World :=
  mkWorld (users w) (userEmails w)
          (tempTokens w ++ [Entity.TempToken.mk (uuid (nextId w)) false email])
          (jwtTokens w) (S (nextId w)) (outbox w).

(** The store once a message has been handed to the email collaborator. *)
Definition sent (message email : string) (w : World) : World :=
  set_outbox (fun l => l ++ [(message, email)]) w.

(** The address is the main email of some user. *)
Definition isMainEmail (email : string) (w : World) : Prop :=
  exists e, In e (userEmails w)
            /\ Entity.UserEmail.main e = true
            /\ Entity.UserEmail.value e = email.

(** The store once [loginByTempToken] has run: the token is used and a
    session credential is open for the user. *)
Definition loggedIn (tokenId userId : string) (w : World) : World :=
  mkWorld (users w) (userEmails w)
          (map (fun t =>
                  if Entity.TempToken.id t =? tokenId
                  then Entity.TempToken.mk (Entity.TempToken.id t) true
                         (Entity.TempToken.userEmail t)
                  else t) (tempTokens w))
          (jwtTokens w ++ [Entity.JwtToken.mk (uuid (nextId w)) true userId])
          (S (nextId w)) (outbox w).

(** An action that changes the store by elementary changes only,
    whatever it returns. *)
Definition tame {A : Type} (m : M A) : Prop :=
  forall w, changes w (snd (m w)).

(** An action that leaves the table of the emails as it is, whatever it
    returns. *)
Definition keepsEmails {A : Type} (m : M A) : Prop :=
  forall w, userEmails (snd (m w)) = userEmails w.

(** No address is in two rows. *)
Definition distinctEmails (w : World) : Prop :=
  NoDup (map Entity.UserEmail.value (userEmails w)).

(* ================================================================== *)
(** ** A small deployment, for the examples *)

Module Demo.

Definition delivering : EmailSender.t := EmailSender.mk (fun _ _ => true).

Definition failing : EmailSender.t := EmailSender.mk (fun _ _ => false).

Definition controller : AuthController.t :=
  AuthController.mk delivering "secret".

Definition offline : AuthController.t :=
  AuthController.mk failing "secret".

Definition config : FastifyApp.Config := FastifyApp.mkConfig "secret".

(** A request as it arrives: [userId] is the empty string. *)
Definition request {Body : Type} (url : string)
    (authorization : option string) (body : Body)
  : FastifyRequest.t Body :=
  FastifyRequest.mk "req-1" url authorization (Some EmptyString) body.

Definition alice : string := "alice@x.com".

Definition bob : string := "bob@x.com".

(** Alice has registered: her user is ["0"], her token ["1"]. *)
Definition w_registered : World :=
  snd (AuthController.register controller
         (request "/auth/register" None (mkRegisterBody alice))
         emptyWorld).

(** Alice has logged in on one device: credential ["2"]. *)
Definition w_one_session : World :=
  snd (AuthController.login (jwt := ReferenceJWT.lib) controller
         (request "/auth/login" None (mkLoginBody alice "1"))
         w_registered).

(** Alice has logged in on a second device: token ["3"],
    credential ["4"]. *)
Definition w_two_sessions : World :=
  snd (AuthController.login (jwt := ReferenceJWT.lib) controller
         (request "/auth/login" None (mkLoginBody alice "3"))
         (snd (AuthController.requestToken controller
                 (request "/auth/request-token" None
                    (mkRequestTokenBody alice))
                 w_one_session))).

(** The tokens of the two devices and their bearer headers. *)
Definition token1 : string := "secret|2|0|alice@x.com".

Definition token2 : string := "secret|4|0|alice@x.com".

Definition device1 : option string := Some ("Bearer " ++ token1)%string.

Definition device2 : option string := Some ("Bearer " ++ token2)%string.


Definition claims2 : JWTToken.Payload :=
  JWTToken.mkPayload "4" "0" alice.

(** Alice, logged in on one device, has logged out from it. *)
Definition w_logged_out : World :=
  snd (FastifyApp.authenticated (jwt := ReferenceJWT.lib) config
         AuthController.logout (request "/auth/logout" device1 tt)
         w_one_session).

End Demo.

(* ================================================================== *)
(** ** Strings *)

Lemma prefix_spec (p s : string) :
  String.prefix p s = true <-> exists r, s = (p ++ r)%string.
Proof.
  revert s; induction p as [|a p IH]; intros s.
  - split; [intros _; exists s; reflexivity | intros _; destruct s; reflexivity].
  - destruct s as [|b s]; simpl.
    + split; [discriminate | intros [r Hr]; discriminate].
    + destruct (ascii_dec a b) as [->|Hab].
      * rewrite IH. split; intros [r Hr]; exists r; congruence.
      * split; [discriminate | intros [r Hr]; congruence].
Qed.

Lemma includes_spec (sub s : string) :
  JS.includes sub s = true <->
  exists pre post, s = (pre ++ sub ++ post)%string.
Proof.
  split.
  - induction s as [|c s IH]; cbn [JS.includes]; rewrite orb_true_iff.
    + intros [H|H]; [|discriminate].
      apply prefix_spec in H. destruct H as [r Hr].
      exists EmptyString, r. exact Hr.
    + intros [H|H].
      * apply prefix_spec in H. destruct H as [r Hr].
        exists EmptyString, r. exact Hr.
      * destruct (IH H) as (pre & post & Hs).
        exists (String c pre), post. simpl. congruence.
  - intros (pre & post & Hs). revert s Hs.
    induction pre as [|c pre IH]; intros s Hs; simpl in Hs.
    + assert (Hp : String.prefix sub s = true)
        by (apply prefix_spec; exists post; exact Hs).
      destruct s; cbn [JS.includes]; rewrite Hp; reflexivity.
    + subst s. cbn [JS.includes append]. rewrite (IH _ eq_refl).
      apply orb_true_r.
Qed.

Lemma split_bearer_header :
  JS.split "Bearer " "Bearer abc.def" = [EmptyString; "abc.def"%string].
Proof. reflexivity. Qed.

Lemma split_other_scheme : JS.split "Bearer " "Basic abc" = ["Basic abc"%string].
Proof. reflexivity. Qed.

Lemma split_bearer_alone :
  JS.split "Bearer " "Bearer " = [EmptyString; EmptyString].
Proof. reflexivity. Qed.

Lemma split_bearer_twice :
  JS.split "Bearer " "xBearer abcBearer def"
  = ["x"%string; "abc"%string; "def"%string].
Proof. reflexivity. Qed.

Lemma includes_health_inside : JS.includes "health" "/user/healthy" = true.
Proof. reflexivity. Qed.

Lemma includes_health_absent : JS.includes "health" "/user/me" = false.
Proof. reflexivity. Qed.

(** The generator never repeats an identifier. *)
Lemma uuid_inj (m n : nat) : uuid m = uuid n -> m = n.
Proof.
  unfold uuid. intros H.
  assert (Hu : Nat.to_uint m = Nat.to_uint n).
  { pose proof (NilEmpty.usu (Nat.to_uint m)) as Hm.
    pose proof (NilEmpty.usu (Nat.to_uint n)) as Hn.
    rewrite H in Hm. congruence. }
  rewrite <- (DecimalNat.Unsigned.of_to m), <- (DecimalNat.Unsigned.of_to n).
  congruence.
Qed.

Arguments uuid : simpl never.
Arguments String.append : simpl never.

(* ================================================================== *)
(** ** Every request changes the store by elementary changes *)

Lemma changes_trans (w1 w2 w3 : World) :
  changes w1 w2 -> changes w2 w3 -> changes w1 w3.
Proof.
  intros H12 H23. induction H23 as [|w2 w3 w4 _ IH Hc].
  - exact H12.
  - eapply changes_step; [apply IH; exact H12 | exact Hc].
Qed.

Lemma changes_one (w1 w2 : World) : change w1 w2 -> changes w1 w2.
Proof. intros H. eapply changes_step; [apply changes_refl | exact H]. Qed.

Lemma world_eta (w : World) :
  mkWorld (users w) (userEmails w) (tempTokens w) (jwtTokens w)
          (nextId w) (outbox w) = w.
Proof. destruct w; reflexivity. Qed.

(** The user row is in the table once [registerUser] has run: [save] has
    nothing to add. *)
Lemma existsb_app_last {A : Type} (p : A -> bool) (l : list A) (a : A) :
  p a = true -> existsb p (l ++ [a]) = true.
Proof.
  intros H. rewrite existsb_app. simpl. rewrite H.
  rewrite orb_true_r. reflexivity.
Qed.

Lemma registered_changes (email : string) (w : World) :
  changes w (registered email w).
Proof.
  pose (w1 := mkWorld (users w) (userEmails w) (tempTokens w) (jwtTokens w)
                      (S (nextId w)) (outbox w)).
  pose (w2 := set_users
                (fun l => l ++ [Entity.User.mk (uuid (nextId w))]) w1).
  pose (w3 := set_userEmails
                (fun l => l ++ [Entity.UserEmail.mk email true
                                  (uuid (nextId w))]) w2).
  assert (H1 : changes w w1) by (apply changes_one; apply change_draw).
  assert (H2 : changes w w2)
    by (eapply changes_step; [exact H1 | apply change_user]).
  assert (H3 : changes w w3).
  { eapply changes_step; [exact H2 |]. apply change_email.
    exists (nextId w). cbn. split; [lia | reflexivity]. }
  eapply changes_step; [exact H3 |].
  exact (change_token w3 email).
Qed.

Lemma tame_ret {A : Type} (a : A) : tame (ret a).
Proof. intros w. apply changes_refl. Qed.

Lemma tame_throw {A : Type} (e : error) : tame (@throw A e).
Proof. intros w. apply changes_refl. Qed.

Lemma tame_get : tame get.
Proof. intros w. apply changes_refl. Qed.

Lemma tame_bind {A B : Type} (m : M A) (k : A -> M B) :
  tame m -> (forall a, tame (k a)) -> tame (bind m k).
Proof.
  intros Hm Hk w. unfold bind.
  specialize (Hm w). destruct (m w) as [[e|a] w']; cbn in *.
  - exact Hm.
  - eapply changes_trans; [exact Hm | apply Hk].
Qed.

Lemma tame_v4 : tame v4.
Proof. intros w. apply changes_one. exact (change_draw w). Qed.

Lemma tame_registerUser (email : string) : tame (User.registerUser email).
Proof. intros w. exact (registered_changes email w). Qed.

Lemma tame_save (user : Entity.User.t) : tame (User.save user).
Proof.
  intros w. unfold User.save, modify, set_users. cbn.
  destruct (existsb _ (users w)).
  - rewrite world_eta. apply changes_refl.
  - apply changes_one. apply (change_user w user).
Qed.

Lemma tame_mainEmail (user : Entity.User.t) : tame (User.mainEmail user).
Proof. intros w. apply changes_refl. Qed.

Lemma tame_lastTempToken (user : Entity.User.t) :
  tame (User.lastTempToken user).
Proof.
  apply tame_bind; [apply tame_mainEmail |].
  intros [e|]; [intros w; apply changes_refl | apply tame_ret].
Qed.

Lemma tame_createNewToken (user : Entity.User.t) :
  tame (User.createNewToken user).
Proof.
  apply tame_bind; [apply tame_mainEmail |].
  intros [e|]; [| apply tame_throw].
  intros w. apply changes_one.
  exact (change_token w (Entity.UserEmail.value e)).
Qed.

Lemma tame_loginByTempToken (user : Entity.User.t)
    (tempToken : Entity.TempToken.t) :
  tame (User.loginByTempToken user tempToken).
Proof.
  intros w. eapply changes_step.
  - apply changes_one. exact (change_use w (Entity.TempToken.id tempToken)).
  - exact (change_jwt _ (Entity.User.id user)).
Qed.

Lemma tame_lastJwtToken (user : Entity.User.t) :
  tame (User.lastJwtToken user).
Proof. intros w. apply changes_refl. Qed.

Lemma tame_logout (user : Entity.User.t) : tame (User.logout user).
Proof.
  intros w. apply changes_one.
  exact (change_revoke w (Entity.User.id user)).
Qed.

Lemma tame_jwtTokenById (user : Entity.User.t) (id : string) :
  tame (User.jwtTokenById user id).
Proof. intros w. apply changes_refl. Qed.

Lemma tame_User_findOne (id : string) : tame (User.findOne id).
Proof. intros w. apply changes_refl. Qed.

Lemma tame_checkEmailExist (value : string) :
  tame (UserEmail.checkEmailExist value).
Proof. intros w. apply changes_refl. Qed.

Lemma tame_UserEmail_findOne (main : bool) (value : string) :
  tame (UserEmail.findOne main value).
Proof. intros w. apply changes_refl. Qed.

Lemma tame_TempToken_findOne (id : string) (used : bool) (value : string)
    (main : bool) :
  tame (TempToken.findOne id used value main).
Proof. intros w. apply changes_refl. Qed.

Lemma tame_sendEmail (sender : EmailSender.t) (message email : string) :
  tame (EmailSender.sendEmail sender message email).
Proof.
  unfold EmailSender.sendEmail.
  destruct (EmailSender.accepts sender message email).
  - intros w. apply changes_one. exact (change_send w (message, email)).
  - apply tame_throw.
Qed.

Create HintDb tame.
#[local] Hint Resolve tame_ret tame_throw tame_get tame_v4
  tame_registerUser tame_save tame_mainEmail tame_lastTempToken
  tame_createNewToken tame_loginByTempToken tame_lastJwtToken tame_logout
  tame_jwtTokenById tame_User_findOne tame_checkEmailExist
  tame_UserEmail_findOne tame_TempToken_findOne tame_sendEmail : tame.

(** Takes an action apart along its binds and its case analyses. *)
Ltac tame_step :=
  match goal with
  | |- tame (bind _ _) => apply tame_bind; [| intros ?]
  | |- tame (match ?x with _ => _ end) => destruct x
  | |- tame (if ?b then _ else _) => destruct b
  | |- tame (let _ := _ in _) => cbv zeta
  | |- tame _ => solve [auto with tame]
  end.

Lemma tame_register (this : AuthController.t)
    (request : FastifyRequest.t AuthRegisterBody) :
  tame (AuthController.register this request).
Proof. unfold AuthController.register. repeat tame_step. Qed.

Lemma tame_register_handler (sender : EmailSender.t)
    (request : FastifyRequest.t AuthRegisterBody) :
  tame (RegisterHandler.register sender request).
Proof. unfold RegisterHandler.register. repeat tame_step. Qed.

Lemma tame_requestToken (this : AuthController.t)
    (request : FastifyRequest.t AuthRequestTokenBody) :
  tame (AuthController.requestToken this request).
Proof. unfold AuthController.requestToken. repeat tame_step. Qed.

Lemma tame_login {jwt : JWTToken.Lib} (this : AuthController.t)
    (request : FastifyRequest.t AuthLoginBody) :
  tame (AuthController.login this request).
Proof. unfold AuthController.login. repeat tame_step. Qed.

Lemma tame_logout_route (request : FastifyRequest.t unit) :
  tame (AuthController.logout request).
Proof. unfold AuthController.logout. repeat tame_step. Qed.

Lemma tame_onRequest {jwt : JWTToken.Lib} (config : FastifyApp.Config)
    {Body : Type} (request : FastifyRequest.t Body) :
  tame (FastifyApp.onRequest config request).
Proof. unfold FastifyApp.onRequest. repeat tame_step. Qed.

Lemma perform_changes {jwt : JWTToken.Lib} (controller : AuthController.t)
    (config : FastifyApp.Config) (c : call) (w : World) :
  changes w (perform controller config c w).
Proof.
  destruct c; cbn [perform].
  - apply tame_register.
  - apply tame_register_handler.
  - apply tame_requestToken.
  - apply tame_login.
  - unfold FastifyApp.authenticated.
    apply tame_bind; [apply tame_onRequest | intros; apply tame_logout_route].
  - unfold FastifyApp.authenticated.
    apply tame_bind; [apply tame_onRequest | intros; apply tame_ret].
Qed.

Lemma after_changes {jwt : JWTToken.Lib} (controller : AuthController.t)
    (config : FastifyApp.Config) (calls : list call) (w : World) :
  changes w (after controller config calls w).
Proof.
  revert w. induction calls as [|c calls IH]; intros w; cbn.
  - apply changes_refl.
  - eapply changes_trans; [apply perform_changes | apply IH].
Qed.

(* ================================================================== *)
(** ** What the elementary changes preserve *)

Lemma change_nextId (w w' : World) : change w w' -> nextId w <= nextId w'.
Proof. intros H; destruct H; cbn; lia. Qed.

Lemma issued_le (w w' : World) (s : string) :
  nextId w <= nextId w' -> issued w s -> issued w' s.
Proof. intros Hle (k & Hk & ->). exists k. split; [lia | reflexivity]. Qed.

Lemma issued_change (w w' : World) (s : string) :
  change w w' -> issued w s -> issued w' s.
Proof. intros H. apply issued_le. apply change_nextId. exact H. Qed.

Lemma issued_not_next (w : World) (s : string) :
  issued w s -> uuid (nextId w) <> s.
Proof.
  intros (k & Hk & ->) Heq. apply uuid_inj in Heq. lia.
Qed.

Lemma used_row_eta (t : Entity.TempToken.t) :
  Entity.TempToken.used t = true ->
  Entity.TempToken.mk (Entity.TempToken.id t) true
    (Entity.TempToken.userEmail t) = t.
Proof. destruct t; cbn; intros ->; reflexivity. Qed.

(** A used token stays in the table as it is. *)
Lemma used_change (w w' : World) (t : Entity.TempToken.t) :
  change w w' ->
  In t (tempTokens w) -> Entity.TempToken.used t = true ->
  In t (tempTokens w').
Proof.
  intros H Hin Hu; destruct H; cbn; try assumption.
  - apply in_or_app; left; assumption.
  - apply in_map_iff. exists t. split; [| assumption].
    destruct (Entity.TempToken.id t =? tokenId);
      [apply used_row_eta; assumption | reflexivity].
Qed.

Lemma consumed_change (tokenId : string) (w w' : World) :
  change w w' -> consumed tokenId w -> consumed tokenId w'.
Proof.
  intros H [Hi Hall]. split; [eapply issued_change; eassumption |].
  destruct H; cbn; try assumption.
  - apply Forall_app. split; [assumption |].
    constructor; [| constructor]. cbn. intros Heq.
    exfalso. exact (issued_not_next _ _ Hi Heq).
  - apply Forall_map. eapply Forall_impl; [| exact Hall].
    intros t Ht. cbn. destruct (Entity.TempToken.id t =? tokenId0); cbn.
    + reflexivity.
    + exact Ht.
Qed.


(** An address that is in the table stays in it. *)
Lemma email_change (p : Entity.UserEmail.t -> bool) (w w' : World) :
  change w w' ->
  existsb p (userEmails w) = true -> existsb p (userEmails w') = true.
Proof.
  intros H He; destruct H; cbn; try assumption.
  rewrite existsb_app, He. reflexivity.
Qed.

Lemma Forall_issued_le {A : Type} (f : A -> string) (w w' : World)
    (l : list A) :
  nextId w <= nextId w' ->
  Forall (fun a => issued w (f a)) l -> Forall (fun a => issued w' (f a)) l.
Proof.
  intros Hle. apply Forall_impl. intros a. apply issued_le. exact Hle.
Qed.

Lemma wf_change (w w' : World) : change w w' -> wf w -> wf w'.
Proof.
  intros H [He Ht Hj].
  pose proof (change_nextId _ _ H) as Hle.
  pose proof (Forall_issued_le Entity.UserEmail.user _ _ _ Hle He) as He'.
  pose proof (Forall_issued_le Entity.TempToken.id _ _ _ Hle Ht) as Ht'.
  pose proof (Forall_issued_le Entity.JwtToken.id _ _ _ Hle Hj) as Hj'.
  destruct H; constructor; cbn in *; try assumption.
  - apply Forall_app. split; [assumption |].
    constructor; [assumption | constructor].
  - apply Forall_app. split; [assumption |].
    constructor; [| constructor].
    exists (nextId w). cbn. split; [lia | reflexivity].
  - apply Forall_map. eapply Forall_impl; [| exact Ht'].
    intros t Hi. destruct (Entity.TempToken.id t =? tokenId); exact Hi.
  - apply Forall_app. split; [assumption |].
    constructor; [| constructor].
    exists (nextId w). cbn. split; [lia | reflexivity].
  - unfold User.revokeAll. apply Forall_map.
    eapply Forall_impl; [| exact Hj'].
    intros j Hi. destruct (Entity.JwtToken.user j =? userId); exact Hi.
Qed.

(** From one change to any number of them. *)
Lemma changes_preserve (P : World -> Prop) :
  (forall w w', change w w' -> P w -> P w') ->
  forall w w', changes w w' -> P w -> P w'.
Proof.
  intros Hstep w w' H. induction H as [|w1 w2 w3 _ IH Hc]; intros HP.
  - exact HP.
  - eapply Hstep; [exact Hc | apply IH; exact HP].
Qed.

Lemma wf_empty : wf emptyWorld.
Proof. constructor; constructor. Qed.

Lemma wf_changes (w w' : World) : changes w w' -> wf w -> wf w'.
Proof. apply changes_preserve. exact wf_change. Qed.

Lemma consumed_changes (tokenId : string) (w w' : World) :
  changes w w' -> consumed tokenId w -> consumed tokenId w'.
Proof.
  apply (changes_preserve (consumed tokenId)).
  intros ? ?. apply consumed_change.
Qed.


Lemma email_changes (p : Entity.UserEmail.t -> bool) (w w' : World) :
  changes w w' ->
  existsb p (userEmails w) = true -> existsb p (userEmails w') = true.
Proof.
  apply (changes_preserve (fun w => existsb p (userEmails w) = true)).
  intros ? ?. apply email_change.
Qed.

Lemma used_changes (t : Entity.TempToken.t) (w w' : World) :
  changes w w' ->
  In t (tempTokens w) -> Entity.TempToken.used t = true ->
  In t (tempTokens w').
Proof.
  intros H Hin Hu. revert Hin.
  apply (changes_preserve (fun w => In t (tempTokens w))); [| exact H].
  intros w1 w2 Hc Hin. eapply used_change; eassumption.
Qed.

(** Every store the server reaches from the empty one is well formed. *)
Lemma wf_after {jwt : JWTToken.Lib} (controller : AuthController.t)
    (config : FastifyApp.Config) (calls : list call) (w : World) :
  wf w -> wf (after controller config calls w).
Proof. apply wf_changes. apply after_changes. Qed.

(* ================================================================== *)
(** ** Running the actions *)

Lemma bind_ok {A B : Type} (m : M A) (k : A -> M B) (w w2 : World) (b : B) :
  bind m k w = (inr b, w2) ->
  exists a w1, m w = (inr a, w1) /\ k a w1 = (inr b, w2).
Proof.
  unfold bind. destruct (m w) as [[e|a] w1]; intros H.
  - discriminate.
  - exists a, w1. split; [reflexivity | exact H].
Qed.

Lemma bind_run {A B : Type} (m : M A) (k : A -> M B) (w w1 : World) (a : A) :
  m w = (inr a, w1) -> bind m k w = k a w1.
Proof. unfold bind. intros ->. reflexivity. Qed.

Lemma tame_snd {A : Type} (m : M A) (w w1 : World) (r : error + A) :
  tame m -> m w = (r, w1) -> changes w w1.
Proof. intros Ht H. specialize (Ht w). rewrite H in Ht. exact Ht. Qed.

Lemma find_none_all {A : Type} (p : A -> bool) (l : list A) :
  (forall a, In a l -> p a = false) -> find p l = None.
Proof.
  induction l as [|x l IH]; intros H; cbn.
  - reflexivity.
  - rewrite (H x (or_introl eq_refl)). apply IH.
    intros a Ha. apply H. right. exact Ha.
Qed.

Lemma find_app_none {A : Type} (p : A -> bool) (l l' : list A) :
  find p l = None -> find p (l ++ l') = find p l'.
Proof.
  induction l as [|x l IH]; cbn; intros H.
  - reflexivity.
  - destruct (p x); [discriminate | apply IH; exact H].
Qed.

Lemma find_app_some {A : Type} (p : A -> bool) (l l' : list A) (a : A) :
  find p l = Some a -> find p (l ++ l') = Some a.
Proof.
  induction l as [|x l IH]; cbn; intros H.
  - discriminate.
  - destruct (p x); [exact H | apply IH; exact H].
Qed.

Lemma find_last_app_last {A : Type} (p : A -> bool) (l : list A) (a : A) :
  p a = true -> find_last p (l ++ [a]) = Some a.
Proof.
  intros H. unfold find_last. rewrite rev_app_distr. cbn.
  rewrite H. reflexivity.
Qed.

Lemma find_last_in {A : Type} (p : A -> bool) (l : list A) (a : A) :
  find_last p l = Some a -> In a l /\ p a = true.
Proof.
  unfold find_last. intros H. apply find_some in H.
  destruct H as [Hin Hp]. split; [apply in_rev; exact Hin | exact Hp].
Qed.

(* ================================================================== *)
(** ** The allow-list of the hook *)

(** C10.  A request whose URL contains "documentation" or "health"
    anywhere goes through the hook unchecked, whatever its Authorization
    header: the hook returns the request as it came and leaves the store
    alone, and the handler of the route runs on it. *)
Theorem onRequest_allow_list_is_substring {jwt : JWTToken.Lib}
    (config : FastifyApp.Config) {Body : Type}
    (request : FastifyRequest.t Body) (w : World) :
  (exists pre post,
      FastifyRequest.url request = (pre ++ "documentation" ++ post)%string)
  \/ (exists pre post,
         FastifyRequest.url request = (pre ++ "health" ++ post)%string) ->
  FastifyApp.onRequest config request w = (inr request, w)
  /\ forall (A : Type) (handler : FastifyRequest.t Body -> M A),
       FastifyApp.authenticated config handler request w
       = handler (FastifyApp.decorateRequest request) w.
Proof.
  intros H.
  assert (Hallow : JS.includes "documentation" (FastifyRequest.url request)
                   || JS.includes "health" (FastifyRequest.url request)
                   = true).
  { apply orb_true_iff.
    destruct H as [H|H]; [left | right]; apply includes_spec; exact H. }
  assert (Hhook : forall r : FastifyRequest.t Body,
             FastifyRequest.url r = FastifyRequest.url request ->
             FastifyApp.onRequest config r w = (inr r, w)).
  { intros r Hr. unfold FastifyApp.onRequest. rewrite Hr, Hallow.
    reflexivity. }
  split; [apply Hhook; reflexivity |].
  intros A handler. unfold FastifyApp.authenticated.
  apply bind_run. apply Hhook. reflexivity.
Qed.

(** A request for the profile of the user whose id is "documentation",
    without any header, reaches its handler. *)
Lemma onRequest_allow_list_is_substring_witness :
  FastifyApp.onRequest (jwt := ReferenceJWT.lib) Demo.config
    (Demo.request "/user/documentation" None tt) emptyWorld
  = (inr (Demo.request "/user/documentation" None tt), emptyWorld)
  /\ forall (A : Type) (handler : FastifyRequest.t unit -> M A),
       FastifyApp.authenticated (jwt := ReferenceJWT.lib) Demo.config
         handler (Demo.request "/user/documentation" None tt) emptyWorld
       = handler
           (FastifyApp.decorateRequest
              (Demo.request "/user/documentation" None tt))
           emptyWorld.
Proof.
  apply (onRequest_allow_list_is_substring (jwt := ReferenceJWT.lib)).
  left. exists "/user/"%string, EmptyString. reflexivity.
Defined.

(* ================================================================== *)
(** ** requestToken *)

(** No row answers to an address that is no main email. *)
Lemma UserEmail_findOne_absent (value : string) (w : World) :
  (forall e, In e (userEmails w) ->
             Entity.UserEmail.main e = true ->
             Entity.UserEmail.value e <> value) ->
  UserEmail.findOne true value w = (inr None, w).
Proof.
  intros Hnone. unfold UserEmail.findOne, bind, get, ret.
  rewrite find_none_all; [reflexivity |].
  intros e He. specialize (Hnone e He).
  destruct (Entity.UserEmail.main e); cbn.
  - apply String.eqb_neq. apply Hnone. reflexivity.
  - reflexivity.
Qed.

(** C6.  When no user has the address as main email, requestToken returns
    the success envelope and changes nothing: no token is created and no
    message is handed to the email collaborator. *)
Theorem requestToken_unknown_email_is_noop (this : AuthController.t)
    (request : FastifyRequest.t AuthRequestTokenBody) (w : World) :
  (forall e, In e (userEmails w) ->
             Entity.UserEmail.main e = true ->
             Entity.UserEmail.value e
             <> requestToken_email (FastifyRequest.body request)) ->
  AuthController.requestToken this request w
  = (inr (SuccessResponse.create (FastifyRequest.id request) None), w).
Proof.
  intros Hnone. unfold AuthController.requestToken.
  pose proof (UserEmail_findOne_absent
                (requestToken_email (FastifyRequest.body request)) w Hnone)
    as Hfind.
  rewrite (bind_run _ _ w w None Hfind).
  reflexivity.
Qed.

Lemma requestToken_unknown_email_is_noop_witness :
  AuthController.requestToken Demo.controller
    (Demo.request "/auth/request-token" None
       (mkRequestTokenBody Demo.bob))
    Demo.w_registered
  = (inr (SuccessResponse.create "req-1" None), Demo.w_registered).
Proof.
  apply (requestToken_unknown_email_is_noop Demo.controller
           (Demo.request "/auth/request-token" None
              (mkRequestTokenBody Demo.bob))
           Demo.w_registered).
  intros e [<- | []] _. cbn. discriminate.
Defined.

Lemma find_exists {A : Type} (p : A -> bool) (l : list A) :
  (exists a, In a l /\ p a = true) -> exists b, find p l = Some b.
Proof.
  intros (a & Hin & Hp). destruct (find p l) as [b|] eqn:Hf.
  - exists b. reflexivity.
  - rewrite (find_none _ _ Hf a Hin) in Hp. discriminate.
Qed.

Lemma mainEmail_run (user : Entity.User.t) (w : World)
    (r : option Entity.UserEmail.t) :
  find (fun e => (Entity.UserEmail.user e =? Entity.User.id user)
                 && Entity.UserEmail.main e) (userEmails w) = r ->
  User.mainEmail user w = (inr r, w).
Proof. intros <-. reflexivity. Qed.

Lemma createNewToken_run (user : Entity.User.t) (w : World)
    (e : Entity.UserEmail.t) :
  User.mainEmail user w = (inr (Some e), w) ->
  User.createNewToken user w
  = (inr tt, issue (Entity.UserEmail.value e) w).
Proof.
  intros H. unfold User.createNewToken.
  rewrite (bind_run _ _ _ _ _ H). reflexivity.
Qed.

Lemma lastTempToken_issue (user : Entity.User.t) (w : World)
    (e : Entity.UserEmail.t) :
  User.mainEmail user w = (inr (Some e), w) ->
  User.lastTempToken user (issue (Entity.UserEmail.value e) w)
  = (inr (Some (Entity.TempToken.mk (uuid (nextId w)) false
                  (Entity.UserEmail.value e))),
     issue (Entity.UserEmail.value e) w).
Proof.
  intros H. unfold User.lastTempToken.
  rewrite (bind_run _ _ _ (issue (Entity.UserEmail.value e) w) (Some e)).
  - unfold bind, get, ret. cbn [issue tempTokens].
    rewrite find_last_app_last; [reflexivity |].
    cbn. apply String.eqb_refl.
  - unfold User.mainEmail, bind, get, ret in *. cbn [issue userEmails].
    injection H as H. rewrite H. reflexivity.
Qed.

Lemma sendEmail_run (sender : EmailSender.t) (message email : string)
    (w : World) :
  EmailSender.sendEmail sender message email w
  = if EmailSender.accepts sender message email
    then (inr tt, sent message email w)
    else (inl DeliveryError, w).
Proof.
  unfold EmailSender.sendEmail.
  destruct (EmailSender.accepts sender message email); reflexivity.
Qed.

(** requestToken for the main email of a user: the row [owner] the query
    finds, the main email [address] of its user, the token issued for it
    and the message handed to the email collaborator. *)
Lemma requestToken_registered_full (this : AuthController.t)
    (request : FastifyRequest.t AuthRequestTokenBody) (w : World) :
  isMainEmail (requestToken_email (FastifyRequest.body request)) w ->
  exists owner address,
    In owner (userEmails w)
    /\ Entity.UserEmail.main owner = true
    /\ Entity.UserEmail.value owner
       = requestToken_email (FastifyRequest.body request)
    /\ In address (userEmails w)
    /\ Entity.UserEmail.main address = true
    /\ Entity.UserEmail.user address = Entity.UserEmail.user owner
    /\ AuthController.requestToken this request w
       = if EmailSender.accepts (AuthController.emailSender this)
              ("Your token is " ++ uuid (nextId w))
              (Entity.UserEmail.value address)
         then (inr (SuccessResponse.create (FastifyRequest.id request) None),
               sent ("Your token is " ++ uuid (nextId w))
                 (Entity.UserEmail.value address)
                 (issue (Entity.UserEmail.value address) w))
         else (inl DeliveryError, issue (Entity.UserEmail.value address) w).
Proof.
  intros (e & Hin & Hmain & Hval).
  destruct (find_exists
              (fun e => Bool.eqb (Entity.UserEmail.main e) true
                        && (Entity.UserEmail.value e
                            =? requestToken_email
                                 (FastifyRequest.body request)))
              (userEmails w)) as [ue Hue].
  { exists e. split; [exact Hin |].
    rewrite Hmain, Hval, String.eqb_refl. reflexivity. }
  pose proof (find_some _ _ Hue) as [Hue_in Hue_p].
  apply andb_true_iff in Hue_p. destruct Hue_p as [Hue_main Hue_val].
  apply Bool.eqb_prop in Hue_main. apply String.eqb_eq in Hue_val.
  destruct (find_exists
              (fun e => (Entity.UserEmail.user e =? Entity.UserEmail.user ue)
                        && Entity.UserEmail.main e)
              (userEmails w)) as [me Hme].
  { exists ue. split; [exact Hue_in |].
    rewrite Hue_main, String.eqb_refl. reflexivity. }
  pose proof (find_some _ _ Hme) as [Hme_in Hme_p].
  apply andb_true_iff in Hme_p. destruct Hme_p as [Hme_user Hme_main].
  apply String.eqb_eq in Hme_user.
  exists ue, me.
  repeat (split; [assumption |]).
  unfold AuthController.requestToken.
  rewrite (bind_run _ _ w w (Some ue));
    [| unfold UserEmail.findOne, bind, get, ret; rewrite Hue; reflexivity].
  cbv zeta.
  pose proof (mainEmail_run (Entity.User.mk (Entity.UserEmail.user ue)) w _ Hme)
    as Hmain_run.
  rewrite (bind_run _ _ _ _ _ (createNewToken_run _ _ _ Hmain_run)).
  rewrite (bind_run _ _ _ _ _ (lastTempToken_issue _ _ _ Hmain_run)).
  rewrite (bind_run _ _ _ (issue (Entity.UserEmail.value me) w) (Some me));
    [| apply mainEmail_run; exact Hme].
  unfold bind. rewrite sendEmail_run. cbn [Entity.TempToken.id].
  destruct (EmailSender.accepts _ _ _); reflexivity.
Qed.




(* ================================================================== *)
(** ** register *)

(** The handler of controllers/auth/register is the method of the
    controller. *)
Lemma register_handler_eq (this : AuthController.t)
    (request : FastifyRequest.t AuthRegisterBody) :
  RegisterHandler.register (AuthController.emailSender this) request
  = AuthController.register this request.
Proof. reflexivity. Qed.

Lemma register_conflict_run (this : AuthController.t)
    (request : FastifyRequest.t AuthRegisterBody) (w : World) :
  existsb (fun e => Entity.UserEmail.value e
                    =? register_email (FastifyRequest.body request))
          (userEmails w) = true ->
  AuthController.register this request w
  = (inl (ConflictError (register_email (FastifyRequest.body request))), w).
Proof.
  intros H. unfold AuthController.register.
  rewrite (bind_run _ _ w w true); [reflexivity |].
  unfold UserEmail.checkEmailExist, bind, get, ret. rewrite H. reflexivity.
Qed.

(** A successful register leaves the address in the table. *)
Lemma register_ok_email (this : AuthController.t)
    (request : FastifyRequest.t AuthRegisterBody) (w w1 : World)
    (response : SuccessResponse.t) :
  AuthController.register this request w = (inr response, w1) ->
  existsb (fun e => Entity.UserEmail.value e
                    =? register_email (FastifyRequest.body request))
          (userEmails w1) = true.
Proof.
  unfold AuthController.register. intros H.
  apply bind_ok in H. destruct H as (b & w0 & _ & H).
  destruct b; [discriminate H |].
  apply bind_ok in H. destruct H as (user & w' & Hreg & H).
  assert (Hin : existsb
                  (fun e => Entity.UserEmail.value e
                            =? register_email (FastifyRequest.body request))
                  (userEmails w') = true).
  { unfold User.registerUser in Hreg. injection Hreg as _ <-.
    cbn. apply existsb_app_last. cbn. apply String.eqb_refl. }
  revert Hin. apply email_changes.
  refine (tame_snd _ _ _ _ _ H). repeat tame_step.
Qed.

(** C7.  Once register has succeeded for an address, register for the
    same address fails with ConflictError after any history of requests,
    through the controller and through the handler alike, and leaves the
    store as it found it: no user, email or token is created. *)
Theorem register_same_email_conflicts {jwt : JWTToken.Lib}
    (this : AuthController.t) (config : FastifyApp.Config)
    (request request' : FastifyRequest.t AuthRegisterBody)
    (response : SuccessResponse.t) (w w1 : World) (calls : list call) :
  AuthController.register this request w = (inr response, w1) ->
  register_email (FastifyRequest.body request')
  = register_email (FastifyRequest.body request) ->
  AuthController.register this request' (after this config calls w1)
  = (inl (ConflictError (register_email (FastifyRequest.body request))),
     after this config calls w1)
  /\ RegisterHandler.register (AuthController.emailSender this) request'
       (after this config calls w1)
     = (inl (ConflictError (register_email (FastifyRequest.body request))),
        after this config calls w1).
Proof.
  intros Hok Hsame.
  assert (H : AuthController.register this request'
                (after this config calls w1)
              = (inl (ConflictError
                        (register_email (FastifyRequest.body request))),
                 after this config calls w1)).
  { rewrite <- Hsame. apply register_conflict_run. rewrite Hsame.
    apply (email_changes _ w1); [apply after_changes |].
    eapply register_ok_email. exact Hok. }
  split; [exact H | rewrite register_handler_eq; exact H].
Qed.

Lemma register_same_email_conflicts_witness :
  AuthController.register Demo.controller
    (Demo.request "/auth/register" None (mkRegisterBody Demo.alice))
    (after (jwt := ReferenceJWT.lib) Demo.controller Demo.config
       [CallLogin
          (Demo.request "/auth/login" None
             (mkLoginBody Demo.alice "1"))]
       Demo.w_registered)
  = (inl (ConflictError Demo.alice),
     after (jwt := ReferenceJWT.lib) Demo.controller Demo.config
       [CallLogin
          (Demo.request "/auth/login" None
             (mkLoginBody Demo.alice "1"))]
       Demo.w_registered)
  /\ RegisterHandler.register Demo.delivering
       (Demo.request "/auth/register" None (mkRegisterBody Demo.alice))
       (after (jwt := ReferenceJWT.lib) Demo.controller Demo.config
          [CallLogin
             (Demo.request "/auth/login" None
                (mkLoginBody Demo.alice "1"))]
          Demo.w_registered)
     = (inl (ConflictError Demo.alice),
        after (jwt := ReferenceJWT.lib) Demo.controller Demo.config
          [CallLogin
             (Demo.request "/auth/login" None
                (mkLoginBody Demo.alice "1"))]
          Demo.w_registered).
Proof.
  apply (register_same_email_conflicts (jwt := ReferenceJWT.lib)
           Demo.controller Demo.config
           (Demo.request "/auth/register" None
              (mkRegisterBody Demo.alice))
           (Demo.request "/auth/register" None
              (mkRegisterBody Demo.alice))
           (SuccessResponse.create "req-1" None)
           emptyWorld Demo.w_registered).
  - vm_compute. reflexivity.
  - reflexivity.
Defined.

(** [save] finds the row of the user [registerUser] has created. *)
Lemma save_registered (email : string) (w : World) :
  User.save (Entity.User.mk (uuid (nextId w))) (registered email w)
  = (inr tt, registered email w).
Proof.
  unfold User.save, modify, set_users. cbn [registered users].
  rewrite existsb_app_last; [reflexivity |].
  cbn. apply String.eqb_refl.
Qed.

(** In a well-formed store no email belongs to the user about to be
    created: the main email of the new user is the one registered. *)
Lemma mainEmail_registered (email : string) (w : World) :
  wf w ->
  User.mainEmail (Entity.User.mk (uuid (nextId w))) (registered email w)
  = (inr (Some (Entity.UserEmail.mk email true (uuid (nextId w)))),
     registered email w).
Proof.
  intros Hwf. apply mainEmail_run. cbn [registered userEmails Entity.User.id].
  rewrite find_app_none.
  - cbn. rewrite String.eqb_refl. reflexivity.
  - apply find_none_all. intros e He.
    pose proof (wf_emails w Hwf) as Hall.
    rewrite Forall_forall in Hall. specialize (Hall e He).
    apply andb_false_iff. left. apply String.eqb_neq.
    intros Heq. exact (issued_not_next _ _ Hall (eq_sym Heq)).
Qed.

Lemma lastTempToken_registered (email : string) (w : World) :
  wf w ->
  User.lastTempToken (Entity.User.mk (uuid (nextId w))) (registered email w)
  = (inr (Some (Entity.TempToken.mk (uuid (S (nextId w))) false email)),
     registered email w).
Proof.
  intros Hwf. unfold User.lastTempToken.
  rewrite (bind_run _ _ _ _ _ (mainEmail_registered email w Hwf)).
  unfold bind, get, ret. cbn [registered tempTokens Entity.UserEmail.value].
  rewrite find_last_app_last; [reflexivity |].
  cbn. apply String.eqb_refl.
Qed.

(** register for an address that is in no row of a well-formed store:
    the user, the email and the token are created, then the token is
    handed to the email collaborator. *)
Lemma register_fresh_run (this : AuthController.t)
    (request : FastifyRequest.t AuthRegisterBody) (w : World) :
  wf w ->
  existsb (fun e => Entity.UserEmail.value e
                    =? register_email (FastifyRequest.body request))
          (userEmails w) = false ->
  AuthController.register this request w
  = if EmailSender.accepts (AuthController.emailSender this)
         ("Your token is " ++ uuid (S (nextId w)))
         (register_email (FastifyRequest.body request))
    then (inr (SuccessResponse.create (FastifyRequest.id request) None),
          sent ("Your token is " ++ uuid (S (nextId w)))
            (register_email (FastifyRequest.body request))
            (registered (register_email (FastifyRequest.body request)) w))
    else (inl DeliveryError,
          registered (register_email (FastifyRequest.body request)) w).
Proof.
  intros Hwf Hnew. unfold AuthController.register.
  rewrite (bind_run _ _ w w false);
    [| unfold UserEmail.checkEmailExist, bind, get, ret;
       rewrite Hnew; reflexivity].
  rewrite (bind_run _ _ w
             (registered (register_email (FastifyRequest.body request)) w)
             (Entity.User.mk (uuid (nextId w)))); [| reflexivity].
  rewrite (bind_run _ _ _ _ _ (save_registered _ w)).
  rewrite (bind_run _ _ _ _ _ (lastTempToken_registered _ w Hwf)).
  rewrite (bind_run _ _ _ _ _ (mainEmail_registered _ w Hwf)).
  unfold bind. rewrite sendEmail_run.
  cbn [Entity.TempToken.id Entity.UserEmail.value].
  destruct (EmailSender.accepts _ _ _); reflexivity.
Qed.

(** C8.  In a well-formed store, a register that succeeds answers with
    the envelope that holds the request id and no data; the token it has
    issued is a new row of the token table, and its id is in the message
    handed to the email collaborator for the registered address. *)
Theorem register_response_is_bare_ack (this : AuthController.t)
    (request : FastifyRequest.t AuthRegisterBody) (w w1 : World)
    (response : SuccessResponse.t) :
  wf w ->
  AuthController.register this request w = (inr response, w1) ->
  response = SuccessResponse.create (FastifyRequest.id request) None
  /\ RegisterHandler.register (AuthController.emailSender this) request w
     = (inr response, w1)
  /\ exists token,
       tempTokens w1 = tempTokens w ++ [token]
       /\ Entity.TempToken.used token = false
       /\ Entity.TempToken.userEmail token
          = register_email (FastifyRequest.body request)
       /\ outbox w1
          = outbox w
            ++ [(("Your token is " ++ Entity.TempToken.id token)%string,
                 register_email (FastifyRequest.body request))].
Proof.
  intros Hwf Hok.
  destruct (existsb
              (fun e => Entity.UserEmail.value e
                        =? register_email (FastifyRequest.body request))
              (userEmails w)) eqn:Hnew.
  - rewrite (register_conflict_run this request w Hnew) in Hok.
    discriminate Hok.
  - split; [| split; [rewrite register_handler_eq; exact Hok |]];
      rewrite (register_fresh_run this request w Hwf Hnew) in Hok;
      destruct (EmailSender.accepts _ _ _); try discriminate Hok;
      injection Hok as <- <-.
    + reflexivity.
    + exists (Entity.TempToken.mk (uuid (S (nextId w))) false
                (register_email (FastifyRequest.body request))).
      repeat split.
Qed.

Lemma register_response_is_bare_ack_witness :
  SuccessResponse.create "req-1" None = SuccessResponse.create "req-1" None
  /\ RegisterHandler.register Demo.delivering
       (Demo.request "/auth/register" None (mkRegisterBody Demo.alice))
       emptyWorld
     = (inr (SuccessResponse.create "req-1" None), Demo.w_registered)
  /\ exists token,
       tempTokens Demo.w_registered = tempTokens emptyWorld ++ [token]
       /\ Entity.TempToken.used token = false
       /\ Entity.TempToken.userEmail token = Demo.alice
       /\ outbox Demo.w_registered
          = outbox emptyWorld
            ++ [(("Your token is " ++ Entity.TempToken.id token)%string,
                 Demo.alice)].
Proof.
  apply (register_response_is_bare_ack Demo.controller
           (Demo.request "/auth/register" None
              (mkRegisterBody Demo.alice))
           emptyWorld Demo.w_registered
           (SuccessResponse.create "req-1" None)).
  - exact wf_empty.
  - vm_compute. reflexivity.
Defined.

(* ================================================================== *)
(** ** login *)

Lemma in_withUserEmail (w : World) (t : Entity.TempToken.t)
    (e : Entity.UserEmail.t) :
  In (t, e) (TempToken.withUserEmail w) <->
  In t (tempTokens w) /\ In e (userEmails w)
  /\ Entity.UserEmail.value e = Entity.TempToken.userEmail t.
Proof.
  unfold TempToken.withUserEmail. rewrite in_flat_map. split.
  - intros (t' & Ht' & Hin). apply in_map_iff in Hin.
    destruct Hin as (e' & Heq & He'). injection Heq as -> ->.
    apply filter_In in He'. destruct He' as [He' Hv].
    apply String.eqb_eq in Hv. auto.
  - intros (Ht & He & Hv). exists t. split; [exact Ht |].
    apply in_map. apply filter_In. split; [exact He |].
    apply String.eqb_eq. exact Hv.
Qed.

(** No unused token answers to a consumed id. *)
Lemma findOne_consumed (tokenId value : string) (main : bool) (w : World) :
  consumed tokenId w ->
  TempToken.findOne tokenId false value main w = (inr None, w).
Proof.
  intros [_ Hall]. unfold TempToken.findOne, bind, get, ret.
  rewrite find_none_all; [reflexivity |].
  intros [t e] Hin. apply in_withUserEmail in Hin. destruct Hin as [Ht _].
  rewrite Forall_forall in Hall. specialize (Hall t Ht). cbn [fst snd].
  destruct (Entity.TempToken.id t =? tokenId) eqn:Hid; [| reflexivity].
  apply String.eqb_eq in Hid. rewrite (Hall Hid). reflexivity.
Qed.

Lemma login_fail_run {jwt : JWTToken.Lib} (this : AuthController.t)
    (request : FastifyRequest.t AuthLoginBody) (w : World) :
  TempToken.findOne (login_tempToken (FastifyRequest.body request)) false
    (login_email (FastifyRequest.body request)) true w = (inr None, w) ->
  AuthController.login this request w
  = (inl (InvalidTokenError (login_tempToken (FastifyRequest.body request))),
     w).
Proof.
  intros H. unfold AuthController.login.
  rewrite (bind_run _ _ _ _ _ H). reflexivity.
Qed.

Lemma loginByTempToken_run (user : Entity.User.t)
    (tempToken : Entity.TempToken.t) (w : World) :
  User.loginByTempToken user tempToken w
  = (inr tt, loggedIn (Entity.TempToken.id tempToken) (Entity.User.id user) w).
Proof. reflexivity. Qed.

(** Once [loginByTempToken] has run, the id of the token is consumed. *)
Lemma consumed_loggedIn (tempToken : Entity.TempToken.t) (userId : string)
    (w : World) :
  wf w -> In tempToken (tempTokens w) ->
  consumed (Entity.TempToken.id tempToken)
    (loggedIn (Entity.TempToken.id tempToken) userId w).
Proof.
  intros Hwf Hin. split.
  - pose proof (wf_tokens w Hwf) as Hall. rewrite Forall_forall in Hall.
    apply (issued_le w); [cbn; lia | apply Hall; exact Hin].
  - cbn [loggedIn tempTokens]. apply Forall_map. apply Forall_forall.
    intros t _.
    destruct (Entity.TempToken.id t =? Entity.TempToken.id tempToken)
      eqn:Hid; cbn.
    + reflexivity.
    + intros Heq. apply String.eqb_neq in Hid. contradiction.
Qed.

(** What a successful login has done when it returns. *)
Lemma login_ok_inv {jwt : JWTToken.Lib} (this : AuthController.t)
    (request : FastifyRequest.t AuthLoginBody) (w w1 : World)
    (response : SuccessResponse.t) :
  AuthController.login this request w = (inr response, w1) ->
  exists tempToken userEmail,
    In tempToken (tempTokens w)
    /\ Entity.TempToken.id tempToken
       = login_tempToken (FastifyRequest.body request)
    /\ changes
         (loggedIn (Entity.TempToken.id tempToken)
            (Entity.UserEmail.user userEmail) w) w1.
Proof.
  unfold AuthController.login. intros H.
  apply bind_ok in H. destruct H as (found & w0 & Hfind & H).
  unfold TempToken.findOne, bind, get, ret in Hfind.
  injection Hfind as Hfind <-.
  destruct found as [[tempToken userEmail]|]; [| discriminate H].
  apply find_some in Hfind. destruct Hfind as [Hin Hp].
  apply in_withUserEmail in Hin. destruct Hin as [Hin _].
  cbn [fst snd] in Hp.
  repeat (apply andb_true_iff in Hp; destruct Hp as [Hp ?]).
  apply String.eqb_eq in Hp.
  exists tempToken, userEmail. split; [exact Hin | split; [exact Hp |]].
  cbv zeta in H. apply bind_ok in H. destruct H as ([] & w' & Hlog & H).
  rewrite loginByTempToken_run in Hlog. injection Hlog as <-.
  refine (tame_snd _ _ _ _ _ H). repeat tame_step.
Qed.

(** C1.  In a well-formed store, once a login with a temp token has
    succeeded the token is used; after any history of requests every used
    token is still in the table as it was, every token with that id is
    used, and every login that supplies the id fails with
    InvalidTokenError and leaves the store alone. *)
Theorem login_temp_token_single_use {jwt : JWTToken.Lib}
    (this : AuthController.t) (config : FastifyApp.Config)
    (request : FastifyRequest.t AuthLoginBody) (w w1 : World)
    (response : SuccessResponse.t) :
  wf w ->
  AuthController.login this request w = (inr response, w1) ->
  (exists token,
      In token (tempTokens w1)
      /\ Entity.TempToken.id token
         = login_tempToken (FastifyRequest.body request)
      /\ Entity.TempToken.used token = true)
  /\ forall calls : list call,
       (forall token,
           In token (tempTokens w1) -> Entity.TempToken.used token = true ->
           In token (tempTokens (after this config calls w1)))
       /\ (forall token,
              In token (tempTokens (after this config calls w1)) ->
              Entity.TempToken.id token
              = login_tempToken (FastifyRequest.body request) ->
              Entity.TempToken.used token = true)
       /\ forall request' : FastifyRequest.t AuthLoginBody,
            login_tempToken (FastifyRequest.body request')
            = login_tempToken (FastifyRequest.body request) ->
            AuthController.login this request' (after this config calls w1)
            = (inl (InvalidTokenError
                      (login_tempToken (FastifyRequest.body request))),
               after this config calls w1).
Proof.
  intros Hwf Hok.
  destruct (login_ok_inv this request w w1 response Hok)
    as (tempToken & userEmail & Hin & Hid & Hch).
  pose proof (consumed_loggedIn tempToken (Entity.UserEmail.user userEmail)
                w Hwf Hin) as Hcons0.
  assert (Hcons1 : consumed (login_tempToken (FastifyRequest.body request))
                     w1).
  { rewrite <- Hid. eapply consumed_changes; eassumption. }
  split.
  - exists (Entity.TempToken.mk (Entity.TempToken.id tempToken) true
              (Entity.TempToken.userEmail tempToken)).
    split; [| split; [exact Hid | reflexivity]].
    apply (used_changes _ _ _ Hch); [| reflexivity].
    cbn [loggedIn tempTokens]. apply in_map_iff. exists tempToken.
    rewrite String.eqb_refl. split; [reflexivity | exact Hin].
  - intros calls.
    assert (Hcons2 : consumed (login_tempToken (FastifyRequest.body request))
                       (after this config calls w1)).
    { eapply consumed_changes; [apply after_changes | exact Hcons1]. }
    split; [| split].
    + intros token Htok Hused.
      exact (used_changes token _ _ (after_changes this config calls w1)
               Htok Hused).
    + intros token Htok Heq. destruct Hcons2 as [_ Hall].
      rewrite Forall_forall in Hall. exact (Hall token Htok Heq).
    + intros request' Hsame. rewrite <- Hsame.
      apply login_fail_run. apply findOne_consumed.
      rewrite Hsame. exact Hcons2.
Qed.

Lemma wf_w_registered : wf Demo.w_registered.
Proof.
  apply (wf_changes emptyWorld); [| exact wf_empty].
  exact (tame_register Demo.controller
           (Demo.request "/auth/register" None
              (mkRegisterBody Demo.alice)) emptyWorld).
Qed.

Lemma login_temp_token_single_use_witness :
  wf Demo.w_registered
  /\ AuthController.login (jwt := ReferenceJWT.lib) Demo.controller
       (Demo.request "/auth/login" None (mkLoginBody Demo.alice "1"))
       Demo.w_registered
     = (inr (SuccessResponse.create "req-1"
               (Some [("token", "secret|2|0|alice@x.com")])),
        Demo.w_one_session)
  /\ AuthController.login (jwt := ReferenceJWT.lib) Demo.controller
       (Demo.request "/auth/login" None (mkLoginBody Demo.alice "1"))
       (after (jwt := ReferenceJWT.lib) Demo.controller Demo.config
          [CallRequestToken
             (Demo.request "/auth/request-token" None
                (mkRequestTokenBody Demo.alice))]
          Demo.w_one_session)
     = (inl (InvalidTokenError "1"),
        after (jwt := ReferenceJWT.lib) Demo.controller Demo.config
          [CallRequestToken
             (Demo.request "/auth/request-token" None
                (mkRequestTokenBody Demo.alice))]
          Demo.w_one_session).
Proof.
  assert (Hok : AuthController.login (jwt := ReferenceJWT.lib)
                  Demo.controller
                  (Demo.request "/auth/login" None
                     (mkLoginBody Demo.alice "1"))
                  Demo.w_registered
                = (inr (SuccessResponse.create "req-1"
                          (Some [("token", "secret|2|0|alice@x.com")])),
                   Demo.w_one_session))
    by (vm_compute; reflexivity).
  split; [exact wf_w_registered | split; [exact Hok |]].
  exact (proj2 (proj2 (proj2
           (login_temp_token_single_use (jwt := ReferenceJWT.lib)
              Demo.controller Demo.config _ _ _ _
              wf_w_registered Hok)
           [CallRequestToken
              (Demo.request "/auth/request-token" None
                 (mkRequestTokenBody Demo.alice))]))
           (Demo.request "/auth/login" None
              (mkLoginBody Demo.alice "1"))
           eq_refl).
Defined.

Lemma save_frame (user : Entity.User.t) (w : World) :
  exists us,
    User.save user w
    = (inr tt,
       mkWorld us (userEmails w) (tempTokens w) (jwtTokens w) (nextId w)
               (outbox w)).
Proof.
  unfold User.save, modify, set_users. eexists. reflexivity.
Qed.

(** login accepts an unused token of the main email it names. *)
Lemma login_succeeds {jwt : JWTToken.Lib} (this : AuthController.t)
    (request : FastifyRequest.t AuthLoginBody) (w : World) :
  (exists token email,
      In token (tempTokens w) /\ In email (userEmails w)
      /\ Entity.TempToken.id token
         = login_tempToken (FastifyRequest.body request)
      /\ Entity.TempToken.used token = false
      /\ Entity.UserEmail.value email = Entity.TempToken.userEmail token
      /\ Entity.UserEmail.value email
         = login_email (FastifyRequest.body request)
      /\ Entity.UserEmail.main email = true) ->
  exists response w1,
    AuthController.login this request w = (inr response, w1).
Proof.
  intros (token & email & Ht & He & Hid & Hused & Hown & Hval & Hmain).
  destruct (find_exists
              (fun te =>
                 (Entity.TempToken.id (fst te)
                  =? login_tempToken (FastifyRequest.body request))
                 && Bool.eqb (Entity.TempToken.used (fst te)) false
                 && (Entity.UserEmail.value (snd te)
                     =? login_email (FastifyRequest.body request))
                 && Bool.eqb (Entity.UserEmail.main (snd te)) true)
              (TempToken.withUserEmail w)) as [[tempToken userEmail] Hfind].
  { exists (token, email). split; [apply in_withUserEmail; auto |].
    cbn [fst snd]. rewrite Hid, Hused, Hval, Hmain, !String.eqb_refl.
    reflexivity. }
  pose proof (find_some _ _ Hfind) as [Hin Hp].
  apply in_withUserEmail in Hin. destruct Hin as (_ & Hue & _).
  cbn [fst snd] in Hp. apply andb_true_iff in Hp. destruct Hp as [_ Hm].
  apply Bool.eqb_prop in Hm.
  destruct (find_exists
              (fun e => (Entity.UserEmail.user e
                         =? Entity.UserEmail.user userEmail)
                        && Entity.UserEmail.main e)
              (userEmails w)) as [me Hme].
  { exists userEmail. split; [exact Hue |].
    rewrite Hm, String.eqb_refl. reflexivity. }
  unfold AuthController.login.
  rewrite (bind_run _ _ w w (Some (tempToken, userEmail)));
    [| unfold TempToken.findOne, bind, get, ret; rewrite Hfind; reflexivity].
  cbv zeta.
  rewrite (bind_run _ _ _ _ _ (loginByTempToken_run _ tempToken w)).
  destruct (save_frame (Entity.User.mk (Entity.UserEmail.user userEmail))
              (loggedIn (Entity.TempToken.id tempToken)
                 (Entity.UserEmail.user userEmail) w)) as [us Hsave].
  rewrite (bind_run _ _ _ _ _ Hsave).
  cbn [loggedIn userEmails tempTokens jwtTokens nextId outbox
       Entity.User.id].
  match goal with
  | |- exists _ _, bind (User.lastJwtToken ?u) _ ?w' = _ =>
      rewrite (bind_run _ _ w' w'
                 (Some (Entity.JwtToken.mk (uuid (nextId w)) true
                          (Entity.UserEmail.user userEmail))));
      [rewrite (bind_run _ _ w' w' (Some me)) |]
  end.
  - eexists. eexists. reflexivity.
  - apply mainEmail_run. exact Hme.
  - unfold User.lastJwtToken, bind, get, ret. cbn [jwtTokens].
    rewrite find_last_app_last; [reflexivity |].
    cbn. apply String.eqb_refl.
Qed.

(** In the store [registerUser] has left, the row the queries find for
    the registered address, and for its user, is the one just created. *)
Lemma registered_rows (email : string) (w : World)
    (owner address : Entity.UserEmail.t) :
  wf w ->
  existsb (fun e => Entity.UserEmail.value e =? email) (userEmails w)
  = false ->
  In owner (userEmails (registered email w)) ->
  Entity.UserEmail.value owner = email ->
  In address (userEmails (registered email w)) ->
  Entity.UserEmail.user address = Entity.UserEmail.user owner ->
  Entity.UserEmail.value address = email.
Proof.
  intros Hwf Hnew Ho Hov Ha Hau.
  cbn [registered userEmails] in Ho, Ha.
  apply in_app_or in Ho. destruct Ho as [Ho | [<- | []]].
  - exfalso.
    assert (Hex : existsb (fun e => Entity.UserEmail.value e =? email)
                    (userEmails w) = true).
    { apply existsb_exists. exists owner.
      split; [exact Ho | apply String.eqb_eq; exact Hov]. }
    rewrite Hex in Hnew. discriminate Hnew.
  - cbn in Hau. apply in_app_or in Ha. destruct Ha as [Ha | [<- | []]].
    + exfalso. pose proof (wf_emails w Hwf) as Hall.
      rewrite Forall_forall in Hall.
      exact (issued_not_next _ _ (Hall address Ha) (eq_sym Hau)).
    + reflexivity.
Qed.

(** C9, as the code has it.  In a well-formed store, for an address that
    is in no row: when the email collaborator rejects the message register
    hands it, register fails with the error of the send, DeliveryError,
    which is none of the errors the controller throws; the store is the
    one [registerUser] has left, with the user, the email and the unused
    token; no message is out, and a login with the address and that token
    succeeds.  The failed register cannot be retried: register for the
    same address now fails with the conflict error and changes nothing.
    A token can be sent again only through requestToken, which issues
    another token for the address and hands it to the collaborator. *)
Theorem register_delivery_failure_keeps_token {jwt : JWTToken.Lib}
    (this : AuthController.t)
    (request : FastifyRequest.t AuthRegisterBody) (w : World) :
  wf w ->
  existsb (fun e => Entity.UserEmail.value e
                    =? register_email (FastifyRequest.body request))
          (userEmails w) = false ->
  EmailSender.accepts (AuthController.emailSender this)
    ("Your token is " ++ uuid (S (nextId w)))
    (register_email (FastifyRequest.body request)) = false ->
  AuthController.register this request w
  = (inl DeliveryError,
     registered (register_email (FastifyRequest.body request)) w)
  /\ EmailSender.sendEmail (AuthController.emailSender this)
       ("Your token is " ++ uuid (S (nextId w)))
       (register_email (FastifyRequest.body request))
       (registered (register_email (FastifyRequest.body request)) w)
     = (inl DeliveryError,
        registered (register_email (FastifyRequest.body request)) w)
  /\ (forall message, DeliveryError <> Error message)
  /\ tempTokens (registered (register_email (FastifyRequest.body request)) w)
     = tempTokens w
       ++ [Entity.TempToken.mk (uuid (S (nextId w))) false
             (register_email (FastifyRequest.body request))]
  /\ outbox (registered (register_email (FastifyRequest.body request)) w)
     = outbox w
  /\ (forall login_request : FastifyRequest.t AuthLoginBody,
         FastifyRequest.body login_request
         = mkLoginBody (register_email (FastifyRequest.body request))
             (uuid (S (nextId w))) ->
         exists response w2,
           AuthController.login this login_request
             (registered (register_email (FastifyRequest.body request)) w)
           = (inr response, w2))
  /\ (forall (retry : AuthController.t)
             (request' : FastifyRequest.t AuthRegisterBody),
         register_email (FastifyRequest.body request')
         = register_email (FastifyRequest.body request) ->
         AuthController.register retry request'
           (registered (register_email (FastifyRequest.body request)) w)
         = (inl (ConflictError
                   (register_email (FastifyRequest.body request))),
            registered (register_email (FastifyRequest.body request)) w))
  /\ (forall (retry : AuthController.t)
             (request' : FastifyRequest.t AuthRequestTokenBody),
         requestToken_email (FastifyRequest.body request')
         = register_email (FastifyRequest.body request) ->
         AuthController.requestToken retry request'
           (registered (register_email (FastifyRequest.body request)) w)
         = if EmailSender.accepts (AuthController.emailSender retry)
                ("Your token is " ++ uuid (S (S (nextId w))))
                (register_email (FastifyRequest.body request))
           then (inr (SuccessResponse.create (FastifyRequest.id request')
                        None),
                 sent ("Your token is " ++ uuid (S (S (nextId w))))
                   (register_email (FastifyRequest.body request))
                   (issue (register_email (FastifyRequest.body request))
                      (registered
                         (register_email (FastifyRequest.body request)) w)))
           else (inl DeliveryError,
                 issue (register_email (FastifyRequest.body request))
                   (registered
                      (register_email (FastifyRequest.body request)) w))).
Proof.
  intros Hwf Hnew Hreject.
  split; [| split; [| split; [| split; [| split; [| split; [| split]]]]]].
  - rewrite (register_fresh_run this request w Hwf Hnew), Hreject.
    reflexivity.
  - rewrite sendEmail_run, Hreject. reflexivity.
  - discriminate.
  - reflexivity.
  - reflexivity.
  - intros login_request Hbody. apply login_succeeds.
    exists (Entity.TempToken.mk (uuid (S (nextId w))) false
              (register_email (FastifyRequest.body request))).
    exists (Entity.UserEmail.mk
              (register_email (FastifyRequest.body request)) true
              (uuid (nextId w))).
    rewrite Hbody. cbn [registered tempTokens userEmails].
    repeat split; apply in_or_app; right; left; reflexivity.
  - intros retry request' Hsame. rewrite <- Hsame.
    apply register_conflict_run. rewrite Hsame.
    cbn [registered userEmails]. apply existsb_app_last.
    cbn. apply String.eqb_refl.
  - intros retry request' Hsame.
    destruct (requestToken_registered_full retry request'
                (registered (register_email (FastifyRequest.body request)) w))
      as (owner & address & Ho & _ & Hov & Ha & _ & Hau & Hrun).
    { exists (Entity.UserEmail.mk
                (register_email (FastifyRequest.body request)) true
                (uuid (nextId w))).
      split; [cbn [registered userEmails]; apply in_or_app; right; left;
              reflexivity |].
      split; [reflexivity | symmetry; exact Hsame]. }
    rewrite Hsame in Hov.
    rewrite (registered_rows _ w owner address Hwf Hnew Ho Hov Ha Hau)
      in Hrun.
    exact Hrun.
Qed.

Lemma register_delivery_failure_keeps_token_witness :
  wf emptyWorld
  /\ AuthController.register Demo.offline
       (Demo.request "/auth/register" None (mkRegisterBody Demo.alice))
       emptyWorld
     = (inl DeliveryError, registered Demo.alice emptyWorld)
  /\ (exists response w2,
         AuthController.login (jwt := ReferenceJWT.lib) Demo.offline
           (Demo.request "/auth/login" None (mkLoginBody Demo.alice "1"))
           (registered Demo.alice emptyWorld)
         = (inr response, w2))
  /\ AuthController.register Demo.controller
       (Demo.request "/auth/register" None (mkRegisterBody Demo.alice))
       (registered Demo.alice emptyWorld)
     = (inl (ConflictError Demo.alice), registered Demo.alice emptyWorld)
  /\ fst (AuthController.requestToken Demo.controller
            (Demo.request "/auth/request-token" None
               (mkRequestTokenBody Demo.alice))
            (registered Demo.alice emptyWorld))
     = inr (SuccessResponse.create "req-1" None).
Proof.
  split; [exact wf_empty |].
  destruct (register_delivery_failure_keeps_token (jwt := ReferenceJWT.lib)
              Demo.offline
              (Demo.request "/auth/register" None
                 (mkRegisterBody Demo.alice))
              emptyWorld wf_empty eq_refl eq_refl)
    as (Hfail & _ & _ & _ & _ & Hlogin & Hretry & Hagain).
  split; [exact Hfail | split; [| split]].
  - apply (Hlogin (Demo.request "/auth/login" None
                     (mkLoginBody Demo.alice "1"))).
    reflexivity.
  - apply (Hretry Demo.controller
             (Demo.request "/auth/register" None
                (mkRegisterBody Demo.alice))).
    reflexivity.
  - pose proof (Hagain Demo.controller
                  (Demo.request "/auth/request-token" None
                     (mkRequestTokenBody Demo.alice)) eq_refl) as Hr.
    apply (f_equal fst) in Hr. exact Hr.
Defined.

(** C9, as stated, fails: once register has failed with DeliveryError the
    user is saved, and the same register, retried with an email
    collaborator that delivers, fails with the conflict error. *)
Lemma failed_register_is_not_retryable :
  ~ (forall (this retry : AuthController.t)
            (request : FastifyRequest.t AuthRegisterBody) (w w1 : World),
        wf w ->
        AuthController.register this request w = (inl DeliveryError, w1) ->
        (forall message email,
            EmailSender.accepts (AuthController.emailSender retry)
              message email = true) ->
        exists response w2,
          AuthController.register retry request w1 = (inr response, w2)).
Proof.
  intros H.
  destruct (H Demo.offline Demo.controller
              (Demo.request "/auth/register" None
                 (mkRegisterBody Demo.alice))
              emptyWorld (registered Demo.alice emptyWorld) wf_empty)
    as (response & w2 & Hretry).
  - vm_compute. reflexivity.
  - reflexivity.
  - vm_compute in Hretry. discriminate Hretry.
Qed.

(* ================================================================== *)
(** ** The checks of the hook *)

Lemma gated_allow (url : string) :
  gated url = true ->
  JS.includes "documentation" url || JS.includes "health" url = false.
Proof. unfold gated. apply negb_true_iff. Qed.

Lemma onRequest_pass_inv {jwt : JWTToken.Lib} (config : FastifyApp.Config)
    {Body : Type} (request request' : FastifyRequest.t Body) (w w1 : World) :
  gated (FastifyRequest.url request) = true ->
  FastifyApp.onRequest config request w = (inr request', w1) ->
  exists token claims j,
    bearer request = Some token
    /\ JWTToken.verify (FastifyApp.jwtToken_secret config) token = inr claims
    /\ In (Entity.User.mk (JWTToken.userId claims)) (users w)
    /\ In j (jwtTokens w)
    /\ Entity.JwtToken.id j = JWTToken.id claims
    /\ Entity.JwtToken.user j = JWTToken.userId claims
    /\ Entity.JwtToken.activeFlag j = true
    /\ request' = FastifyRequest.set_userId request (JWTToken.userId claims)
    /\ w1 = w.
Proof.
  intros Hg. unfold FastifyApp.onRequest, bearer.
  rewrite (gated_allow _ Hg).
  destruct (FastifyRequest.headers_authorization request) as [[|c s]|];
    try discriminate.
  destruct (nth_error (JS.split "Bearer " (String c s)) 1) as [[|c' s']|];
    try discriminate.
  destruct (JWTToken.verify _ _) as [e|claims] eqn:Hv; [discriminate |].
  unfold bind, User.findOne, User.jwtTokenById, get, ret, throw. cbn.
  destruct (find _ (users w)) as [user|] eqn:Hu; [| discriminate].
  destruct (find _ (jwtTokens w)) as [j|] eqn:Hj; [| discriminate].
  unfold JwtToken.active. destruct (Entity.JwtToken.activeFlag j) eqn:Ha; cbn; [| discriminate].
  intros H. injection H as <- <-.
  apply find_some in Hu. destruct Hu as [Hu Huid].
  apply String.eqb_eq in Huid.
  apply find_some in Hj. destruct Hj as [Hj Hp].
  apply andb_true_iff in Hp. destruct Hp as [Hid Huser].
  apply String.eqb_eq in Hid. apply String.eqb_eq in Huser.
  exists (String c' s'), claims, j. 
  destruct user as [uid]. cbn in *. subst uid.
  repeat split; auto.
Qed.

Lemma onRequest_allow_run {jwt : JWTToken.Lib} (config : FastifyApp.Config)
    {Body : Type} (request : FastifyRequest.t Body) (w : World) :
  gated (FastifyRequest.url request) = false ->
  FastifyApp.onRequest config request w = (inr request, w).
Proof.
  unfold gated. intros H. apply negb_false_iff in H.
  unfold FastifyApp.onRequest. rewrite H. reflexivity.
Qed.

(** No token after ["Bearer "]: the first check of the hook. *)
Lemma onRequest_no_token {jwt : JWTToken.Lib} (config : FastifyApp.Config)
    {Body : Type} (request : FastifyRequest.t Body) (w : World) :
  gated (FastifyRequest.url request) = true ->
  bearer request = None \/ bearer request = Some EmptyString ->
  FastifyApp.onRequest config request w = (inl PermissionDeniedError, w).
Proof.
  intros Hg. unfold FastifyApp.onRequest, bearer.
  rewrite (gated_allow _ Hg).
  destruct (FastifyRequest.headers_authorization request) as [[|c s]|];
    try reflexivity.
  intros [-> | ->]; reflexivity.
Qed.

(** The claims verify, but name no user, or no active credential of the
    user: the last two checks of the hook. *)
Lemma onRequest_no_credential {jwt : JWTToken.Lib}
    (config : FastifyApp.Config) {Body : Type}
    (request : FastifyRequest.t Body) (w : World)
    (token : string) (claims : JWTToken.Payload) :
  gated (FastifyRequest.url request) = true ->
  bearer request = Some token ->
  JWTToken.verify (FastifyApp.jwtToken_secret config) token = inr claims ->
  (forall u, In u (users w) -> Entity.User.id u <> JWTToken.userId claims)
  \/ (forall j, In j (jwtTokens w) ->
                Entity.JwtToken.id j = JWTToken.id claims ->
                Entity.JwtToken.user j = JWTToken.userId claims ->
                Entity.JwtToken.activeFlag j = false) ->
  FastifyApp.onRequest config request w = (inl PermissionDeniedError, w).
Proof.
  intros Hg Hb Hv Hno. unfold FastifyApp.onRequest. unfold bearer in Hb.
  rewrite (gated_allow _ Hg).
  destruct (FastifyRequest.headers_authorization request) as [[|c s]|];
    try reflexivity.
  rewrite Hb. destruct token as [|c' s']; [reflexivity |].
  rewrite Hv.
  unfold bind, User.findOne, User.jwtTokenById, get, ret, throw. cbn.
  destruct (find _ (users w)) as [user|] eqn:Hu; [| reflexivity].
  apply find_some in Hu. destruct Hu as [Hu Huid].
  apply String.eqb_eq in Huid.
  destruct Hno as [Hno | Hno]; [exfalso; exact (Hno user Hu Huid) |].
  destruct (find _ (jwtTokens w)) as [j|] eqn:Hj; [| reflexivity].
  apply find_some in Hj. destruct Hj as [Hj Hp].
  apply andb_true_iff in Hp. destruct Hp as [Hid Huser].
  apply String.eqb_eq in Hid. apply String.eqb_eq in Huser.
  unfold JwtToken.active. rewrite (Hno j Hj Hid); [reflexivity |].
  rewrite Huser. exact Huid.
Qed.

(** The error of [JWTToken.verify] leaves the hook as it is thrown. *)
Lemma onRequest_verify_failure {jwt : JWTToken.Lib}
    (config : FastifyApp.Config) {Body : Type}
    (request : FastifyRequest.t Body) (w : World)
    (c : ascii) (s : string) (e : error) :
  gated (FastifyRequest.url request) = true ->
  bearer request = Some (String c s) ->
  JWTToken.verify (FastifyApp.jwtToken_secret config) (String c s) = inl e ->
  FastifyApp.onRequest config request w = (inl e, w).
Proof.
  intros Hg Hb Hv. unfold FastifyApp.onRequest. unfold bearer in Hb.
  rewrite (gated_allow _ Hg).
  destruct (FastifyRequest.headers_authorization request) as [[|c0 s0]|];
    try discriminate Hb.
  rewrite Hb, Hv. reflexivity.
Qed.


(** C3, as the code has it.  For a request whose URL contains neither
    "documentation" nor "health": a missing header, a header with nothing
    after its first "Bearer ", verified claims that name no user, and
    verified claims that name no active credential of the user are all
    rejected with the one error "Permission denied", the store left
    alone. *)
Theorem onRequest_denials_are_uniform {jwt : JWTToken.Lib}
    (config : FastifyApp.Config) {Body : Type}
    (request : FastifyRequest.t Body) (w : World) :
  gated (FastifyRequest.url request) = true ->
  (bearer request = None \/ bearer request = Some EmptyString)
  \/ (exists token claims,
         bearer request = Some token
         /\ JWTToken.verify (FastifyApp.jwtToken_secret config) token
            = inr claims
         /\ ((forall u, In u (users w) ->
                        Entity.User.id u <> JWTToken.userId claims)
             \/ (forall j, In j (jwtTokens w) ->
                           Entity.JwtToken.id j = JWTToken.id claims ->
                           Entity.JwtToken.user j = JWTToken.userId claims ->
                           Entity.JwtToken.activeFlag j = false))) ->
  FastifyApp.onRequest config request w = (inl PermissionDeniedError, w).
Proof.
  intros Hg [Hno | (token & claims & Hb & Hv & Hno)].
  - apply onRequest_no_token; assumption.
  - eapply onRequest_no_credential; eassumption.
Qed.

(** The profile route without a header is rejected. *)
Lemma onRequest_denials_are_uniform_witness :
  gated "/user/me" = true
  /\ FastifyApp.onRequest (jwt := ReferenceJWT.lib) Demo.config
       (Demo.request "/user/me" None tt) Demo.w_one_session
     = (inl PermissionDeniedError, Demo.w_one_session).
Proof.
  split; [reflexivity |].
  apply (onRequest_denials_are_uniform (jwt := ReferenceJWT.lib)
           Demo.config (Demo.request "/user/me" None tt)
           Demo.w_one_session).
  - reflexivity.
  - left. left. reflexivity.
Defined.

(** C3, as stated, fails: a request without a header for a route behind
    the hook whose URL contains "health" is not rejected. *)
Lemma onRequest_missing_header_not_always_denied :
  ~ (forall (jwt : JWTToken.Lib) (config : FastifyApp.Config)
            (request : FastifyRequest.t unit) (w : World),
        FastifyRequest.headers_authorization request = None ->
        FastifyApp.onRequest config request w
        = (inl PermissionDeniedError, w)).
Proof.
  intros H.
  specialize (H ReferenceJWT.lib Demo.config
                (Demo.request "/user/health" None tt) emptyWorld
                eq_refl).
  vm_compute in H. discriminate H.
Qed.

(** A token that does not verify is rejected with the error of
    [JWTToken.verify], which is not "Permission denied" for the
    reference signer. *)
Lemma onRequest_bad_signature_example :
  FastifyApp.onRequest (jwt := ReferenceJWT.lib) Demo.config
    (Demo.request "/user/me" (Some "Bearer not-a-token") tt)
    Demo.w_one_session
  = (inl InvalidSignature, Demo.w_one_session).
Proof. vm_compute. reflexivity. Qed.

(* ================================================================== *)
(** ** logout *)







(* ================================================================== *)
(** ** logout, whatever [user.logout()] does *)

Lemma logoutWith_logout (request : FastifyRequest.t unit) :
  logoutWith User.logout request = AuthController.logout request.
Proof. reflexivity. Qed.

(** The handler reads the user id and the request id, nothing else. *)
Lemma logoutWith_reads_userId (userLogout : Entity.User.t -> M unit)
    (request1 request2 : FastifyRequest.t unit) (w : World) :
  FastifyRequest.userId request1 = FastifyRequest.userId request2 ->
  FastifyRequest.id request1 = FastifyRequest.id request2 ->
  logoutWith userLogout request1 w = logoutWith userLogout request2 w.
Proof.
  intros Hu Hi. unfold logoutWith. rewrite Hu, Hi. reflexivity.
Qed.

Lemma onRequest_keeps_id {jwt : JWTToken.Lib} (config : FastifyApp.Config)
    {Body : Type} (request request' : FastifyRequest.t Body) (w w1 : World) :
  FastifyApp.onRequest config request w = (inr request', w1) ->
  FastifyRequest.id request' = FastifyRequest.id request.
Proof.
  intros Hpass. destruct (gated (FastifyRequest.url request)) eqn:Hg.
  - apply onRequest_pass_inv in Hpass; [| exact Hg].
    destruct Hpass as (t & c & j & _ & _ & _ & _ & _ & _ & _ & -> & _).
    reflexivity.
  - rewrite onRequest_allow_run in Hpass; [| exact Hg].
    injection Hpass as <- _. reflexivity.
Qed.

(** Two logouts behind the hook that the hook attributes to one user,
    whichever credentials authenticated them, have the same outcome and
    leave the same store.  No implementation of [user.logout()] can revoke
    the credential of the call and spare the other one in both. *)
Lemma logout_outcome_ignores_credential {jwt : JWTToken.Lib}
    (userLogout : Entity.User.t -> M unit) (config : FastifyApp.Config)
    (request1 request2 request1' request2' : FastifyRequest.t unit)
    (w : World) :
  FastifyRequest.id request1 = FastifyRequest.id request2 ->
  FastifyApp.onRequest config (FastifyApp.decorateRequest request1) w
  = (inr request1', w) ->
  FastifyApp.onRequest config (FastifyApp.decorateRequest request2) w
  = (inr request2', w) ->
  FastifyRequest.userId request1' = FastifyRequest.userId request2' ->
  FastifyApp.authenticated config (logoutWith userLogout) request1 w
  = FastifyApp.authenticated config (logoutWith userLogout) request2 w.
Proof.
  intros Hid Hp1 Hp2 Hu. unfold FastifyApp.authenticated.
  rewrite (bind_run _ _ _ _ _ Hp1), (bind_run _ _ _ _ _ Hp2).
  apply logoutWith_reads_userId; [exact Hu |].
  rewrite (onRequest_keeps_id _ _ _ _ _ Hp1).
  rewrite (onRequest_keeps_id _ _ _ _ _ Hp2).
  exact Hid.
Qed.

(** C2, as the code has it.  logout acts on a user, not on a credential:
    for a request the hook lets through with verified claims, the handler
    looks up the user the claims name and runs [user.logout()] on that
    user, handing it nothing else, then answers with the success
    envelope.  Whatever [user.logout()] does, two logouts the hook
    attributes to one user, made with any two credentials of that user,
    have the same outcome and leave the same store; this holds of
    [AuthController.logout] in particular. *)
Theorem logout_acts_on_user_not_credential {jwt : JWTToken.Lib}
    (userLogout : Entity.User.t -> M unit) (config : FastifyApp.Config)
    (request request' : FastifyRequest.t unit) (w : World) :
  gated (FastifyRequest.url request) = true ->
  FastifyApp.onRequest config (FastifyApp.decorateRequest request) w
  = (inr request', w) ->
  exists token claims,
    bearer request = Some token
    /\ JWTToken.verify (FastifyApp.jwtToken_secret config) token = inr claims
    /\ FastifyRequest.userId request' = Some (JWTToken.userId claims)
    /\ (JWTToken.userId claims <> EmptyString ->
        FastifyApp.authenticated config (logoutWith userLogout) request w
        = bind (userLogout (Entity.User.mk (JWTToken.userId claims)))
            (fun _ => ret (SuccessResponse.create (FastifyRequest.id request)
                             None)) w)
    /\ forall request2 request2' : FastifyRequest.t unit,
         FastifyRequest.id request2 = FastifyRequest.id request ->
         FastifyApp.onRequest config (FastifyApp.decorateRequest request2) w
         = (inr request2', w) ->
         FastifyRequest.userId request2' = Some (JWTToken.userId claims) ->
         FastifyApp.authenticated config (logoutWith userLogout) request2 w
         = FastifyApp.authenticated config (logoutWith userLogout) request w
         /\ FastifyApp.authenticated config AuthController.logout request2 w
            = FastifyApp.authenticated config AuthController.logout request w.
Proof.
  intros Hg Hpass.
  pose proof Hpass as Hinv.
  apply onRequest_pass_inv in Hinv; [| exact Hg].
  destruct Hinv
    as (token & claims & j & Hb & Hv & Hu & _ & _ & _ & _ & Hreq & _).
  exists token, claims.
  split; [exact Hb | split; [exact Hv |]].
  assert (Huid : FastifyRequest.userId request'
                 = Some (JWTToken.userId claims))
    by (rewrite Hreq; reflexivity).
  split; [exact Huid | split].
  - intros Hne. unfold FastifyApp.authenticated.
    rewrite (bind_run _ _ _ _ _ Hpass).
    unfold logoutWith. rewrite Huid.
    destruct (JWTToken.userId claims) as [|c s] eqn:Hc; [contradiction |].
    destruct (find_exists (fun u => Entity.User.id u =? String c s)
                (users w)) as [[uid] Hfind].
    { exists (Entity.User.mk (String c s)).
      split; [exact Hu | apply String.eqb_refl]. }
    pose proof (find_some _ _ Hfind) as [_ Hid].
    apply String.eqb_eq in Hid. cbn in Hid. subst uid.
    rewrite (bind_run _ _ w w (Some (Entity.User.mk (String c s))));
      [| unfold User.findOne, bind, get, ret; rewrite Hfind; reflexivity].
    rewrite Hreq. reflexivity.
  - intros request2 request2' Hid Hpass2 Hu2. split.
    + apply (logout_outcome_ignores_credential userLogout config
               request2 request request2' request' w Hid Hpass2 Hpass).
      congruence.
    + change AuthController.logout with (logoutWith User.logout).
      apply (logout_outcome_ignores_credential User.logout config
               request2 request request2' request' w Hid Hpass2 Hpass).
      congruence.
Qed.

(** Alice logs out from her first device, or from her second: the same
    outcome, the same store. *)
Lemma logout_acts_on_user_not_credential_witness :
  gated "/auth/logout" = true
  /\ FastifyApp.onRequest (jwt := ReferenceJWT.lib) Demo.config
       (FastifyApp.decorateRequest
          (Demo.request "/auth/logout" Demo.device1 tt))
       Demo.w_two_sessions
     = (inr (FastifyRequest.set_userId
               (Demo.request "/auth/logout" Demo.device1 tt) "0"),
        Demo.w_two_sessions)
  /\ FastifyApp.authenticated (jwt := ReferenceJWT.lib) Demo.config
       AuthController.logout (Demo.request "/auth/logout" Demo.device2 tt)
       Demo.w_two_sessions
     = FastifyApp.authenticated (jwt := ReferenceJWT.lib) Demo.config
         AuthController.logout (Demo.request "/auth/logout" Demo.device1 tt)
         Demo.w_two_sessions.
Proof.
  assert (Hpass :
            FastifyApp.onRequest (jwt := ReferenceJWT.lib) Demo.config
              (FastifyApp.decorateRequest
                 (Demo.request "/auth/logout" Demo.device1 tt))
              Demo.w_two_sessions
            = (inr (FastifyRequest.set_userId
                      (Demo.request "/auth/logout" Demo.device1 tt) "0"),
               Demo.w_two_sessions))
    by (vm_compute; reflexivity).
  split; [reflexivity | split; [exact Hpass |]].
  destruct (logout_acts_on_user_not_credential (jwt := ReferenceJWT.lib)
              User.logout Demo.config
              (Demo.request "/auth/logout" Demo.device1 tt) _
              Demo.w_two_sessions eq_refl Hpass)
    as (token & claims & Hb & Hv & Hu & _ & Hsame).
  injection Hu as Hu.
  apply (Hsame (Demo.request "/auth/logout" Demo.device2 tt)
           (FastifyRequest.set_userId
              (Demo.request "/auth/logout" Demo.device2 tt) "0")).
  - reflexivity.
  - vm_compute. reflexivity.
  - rewrite <- Hu. reflexivity.
Defined.

(** C2, as stated, fails, whatever [user.logout()] does.  Alice holds two
    active credentials.  The claim asks that after her logout from the
    first device the hook rejects the first and admits the second, and
    that after her logout from the second the hook rejects the second and
    admits the first.  The two logouts leave the same store: no
    implementation of [user.logout()] gives both. *)
Lemma logout_cannot_single_out_credential :
  ~ (exists userLogout : Entity.User.t -> M unit,
        (fst (FastifyApp.onRequest (jwt := ReferenceJWT.lib) Demo.config
                (Demo.request "/user/me" Demo.device1 tt)
                (snd (FastifyApp.authenticated (jwt := ReferenceJWT.lib)
                        Demo.config (logoutWith userLogout)
                        (Demo.request "/auth/logout" Demo.device1 tt)
                        Demo.w_two_sessions)))
         = inl PermissionDeniedError
         /\ fst (FastifyApp.onRequest (jwt := ReferenceJWT.lib) Demo.config
                   (Demo.request "/user/me" Demo.device2 tt)
                   (snd (FastifyApp.authenticated (jwt := ReferenceJWT.lib)
                           Demo.config (logoutWith userLogout)
                           (Demo.request "/auth/logout" Demo.device1 tt)
                           Demo.w_two_sessions)))
            = inr (FastifyRequest.set_userId
                     (Demo.request "/user/me" Demo.device2 tt) "0"))
        /\ (fst (FastifyApp.onRequest (jwt := ReferenceJWT.lib) Demo.config
                   (Demo.request "/user/me" Demo.device2 tt)
                   (snd (FastifyApp.authenticated (jwt := ReferenceJWT.lib)
                           Demo.config (logoutWith userLogout)
                           (Demo.request "/auth/logout" Demo.device2 tt)
                           Demo.w_two_sessions)))
            = inl PermissionDeniedError
            /\ fst (FastifyApp.onRequest (jwt := ReferenceJWT.lib)
                      Demo.config
                      (Demo.request "/user/me" Demo.device1 tt)
                      (snd (FastifyApp.authenticated
                              (jwt := ReferenceJWT.lib)
                              Demo.config (logoutWith userLogout)
                              (Demo.request "/auth/logout" Demo.device2 tt)
                              Demo.w_two_sessions)))
               = inr (FastifyRequest.set_userId
                        (Demo.request "/user/me" Demo.device1 tt) "0"))).
Proof.
  intros (userLogout & [_ Hkept] & [Hrevoked _]).
  assert (Hsame :
            FastifyApp.authenticated (jwt := ReferenceJWT.lib) Demo.config
              (logoutWith userLogout)
              (Demo.request "/auth/logout" Demo.device2 tt)
              Demo.w_two_sessions
            = FastifyApp.authenticated (jwt := ReferenceJWT.lib) Demo.config
                (logoutWith userLogout)
                (Demo.request "/auth/logout" Demo.device1 tt)
                Demo.w_two_sessions).
  { apply (logout_outcome_ignores_credential (jwt := ReferenceJWT.lib)
             userLogout Demo.config
             (Demo.request "/auth/logout" Demo.device2 tt)
             (Demo.request "/auth/logout" Demo.device1 tt)
             (FastifyRequest.set_userId
                (Demo.request "/auth/logout" Demo.device2 tt) "0")
             (FastifyRequest.set_userId
                (Demo.request "/auth/logout" Demo.device1 tt) "0")
             Demo.w_two_sessions).
    - reflexivity.
    - vm_compute. reflexivity.
    - vm_compute. reflexivity.
    - reflexivity. }
  rewrite Hsame in Hrevoked. rewrite Hrevoked in Hkept.
  discriminate Hkept.
Qed.

(* ================================================================== *)
(** ** The token the hook reads from the header *)

Lemma append_empty_r (s : string) : (s ++ EmptyString)%string = s.
Proof.
  induction s as [|c s IH]; [reflexivity |].
  change (String c (s ++ EmptyString)%string = String c s).
  rewrite IH. reflexivity.
Qed.

Lemma append_char_assoc (s t : string) (c : ascii) :
  ((s ++ String c EmptyString) ++ t)%string = (s ++ String c t)%string.
Proof.
  induction s as [|d s IH]; [reflexivity |].
  change (String d ((s ++ String c EmptyString) ++ t)%string
          = String d (s ++ String c t)%string).
  rewrite IH. reflexivity.
Qed.

Lemma prefix_empty (s : string) : String.prefix EmptyString s = true.
Proof. destruct s; reflexivity. Qed.

(** A string without the separator is one piece. *)
Lemma split_from_no_separator (sep s cur : string) :
  JS.includes sep s = false ->
  JS.split_from sep s cur 0 = [(cur ++ s)%string].
Proof.
  revert cur. induction s as [|c s IH]; intros cur H.
  - cbn [JS.split_from]. rewrite append_empty_r. reflexivity.
  - cbn [JS.includes] in H. apply orb_false_iff in H. destruct H as [Hp Hs].
    cbn [JS.split_from]. rewrite Hp, (IH _ Hs), append_char_assoc.
    reflexivity.
Qed.

(** What stands before the first capital B is part of the first piece. *)
Lemma split_from_before_B (pre rest cur : string) :
  JS.includes "B" pre = false ->
  JS.split_from "Bearer " (pre ++ rest) cur 0
  = JS.split_from "Bearer " rest (cur ++ pre) 0.
Proof.
  revert cur. induction pre as [|c pre IH]; intros cur H.
  - rewrite append_empty_r. reflexivity.
  - cbn [JS.includes] in H. apply orb_false_iff in H. destruct H as [Hp Hs].
    change ((String c pre ++ rest)%string) with (String c (pre ++ rest)%string).
    cbn [JS.split_from].
    assert (Hno : String.prefix "Bearer " (String c (pre ++ rest)) = false).
    { cbn [String.prefix] in Hp |- *.
      destruct (ascii_dec "B" c) as [Heq|Hne]; [| reflexivity].
      rewrite prefix_empty in Hp. discriminate Hp. }
    rewrite Hno, (IH _ Hs), append_char_assoc. reflexivity.
Qed.

Lemma split_from_at_Bearer (rest cur : string) :
  JS.split_from "Bearer " ("Bearer " ++ rest) cur 0
  = cur :: JS.split_from "Bearer " rest EmptyString 0.
Proof.
  assert (Hp : String.prefix "Bearer " ("Bearer " ++ rest) = true)
    by (apply prefix_spec; exists rest; reflexivity).
  change (("Bearer " ++ rest)%string)
    with (String "B" ("earer " ++ rest)%string) in *.
  cbn [JS.split_from]. rewrite Hp. reflexivity.
Qed.

(** X1.  The hook takes as token what follows the first "Bearer " of the
    header, up to the next "Bearer ": for a header made of any text
    without a capital B, then "Bearer ", then a token that does not
    contain "Bearer ", the token read is that token.  With no text before,
    this is the header of the documentation; the scheme is not required
    to start the header. *)
Theorem bearer_reads_after_first_Bearer {Body : Type}
    (request : FastifyRequest.t Body) (pre token : string) :
  FastifyRequest.headers_authorization request
  = Some (pre ++ "Bearer " ++ token)%string ->
  JS.includes "B" pre = false ->
  JS.includes "Bearer " token = false ->
  bearer request = Some token
  /\ nth_error (JS.split "Bearer " (pre ++ "Bearer " ++ token)) 1
     = Some token.
Proof.
  intros Hh Hpre Htok.
  assert (Hsplit : JS.split "Bearer " (pre ++ "Bearer " ++ token)
                   = [pre; token]).
  { unfold JS.split.
    rewrite (split_from_before_B pre _ _ Hpre), split_from_at_Bearer.
    rewrite (split_from_no_separator _ _ _ Htok). reflexivity. }
  unfold bearer. rewrite Hh, Hsplit. split; reflexivity.
Qed.

Lemma bearer_reads_after_first_Bearer_witness :
  bearer (Demo.request "/user/me" (Some "token Bearer abc.def") tt)
  = Some "abc.def"%string
  /\ nth_error (JS.split "Bearer " ("token " ++ "Bearer " ++ "abc.def")) 1
     = Some "abc.def"%string.
Proof.
  apply (bearer_reads_after_first_Bearer
           (Demo.request "/user/me" (Some "token Bearer abc.def") tt)
           "token " "abc.def"); reflexivity.
Defined.

(* ================================================================== *)
(** ** More on the hook *)

(** A request whose token verifies to the claims of a user in the table
    and of credentials of this user that are all active goes through. *)
Lemma onRequest_pass_run {jwt : JWTToken.Lib} (config : FastifyApp.Config)
    {Body : Type} (request : FastifyRequest.t Body) (w : World)
    (c : ascii) (s : string) (claims : JWTToken.Payload) :
  gated (FastifyRequest.url request) = true ->
  bearer request = Some (String c s) ->
  JWTToken.verify (FastifyApp.jwtToken_secret config) (String c s)
  = inr claims ->
  (exists u, In u (users w) /\ Entity.User.id u = JWTToken.userId claims) ->
  (exists j, In j (jwtTokens w)
             /\ Entity.JwtToken.id j = JWTToken.id claims
             /\ Entity.JwtToken.user j = JWTToken.userId claims) ->
  (forall j, In j (jwtTokens w) ->
             Entity.JwtToken.id j = JWTToken.id claims ->
             Entity.JwtToken.user j = JWTToken.userId claims ->
             Entity.JwtToken.activeFlag j = true) ->
  FastifyApp.onRequest config request w
  = (inr (FastifyRequest.set_userId request (JWTToken.userId claims)), w).
Proof.
  intros Hg Hb Hv (u & Hu & Huid) (j & Hj & Hjid & Hju) Hact.
  unfold FastifyApp.onRequest. unfold bearer in Hb.
  rewrite (gated_allow _ Hg).
  destruct (FastifyRequest.headers_authorization request) as [[|c0 s0]|];
    try discriminate Hb.
  rewrite Hb, Hv.
  destruct (find_exists
              (fun u => Entity.User.id u =? JWTToken.userId claims)
              (users w)) as [u' Hfu].
  { exists u. split; [exact Hu | apply String.eqb_eq; exact Huid]. }
  pose proof (find_some _ _ Hfu) as [_ Hu'].
  apply String.eqb_eq in Hu'.
  destruct (find_exists
              (fun j => (Entity.JwtToken.id j =? JWTToken.id claims)
                        && (Entity.JwtToken.user j =? Entity.User.id u'))
              (jwtTokens w)) as [j' Hfj].
  { exists j. split; [exact Hj |].
    rewrite Hu', Hjid, Hju, !String.eqb_refl. reflexivity. }
  pose proof (find_some _ _ Hfj) as [Hj' Hp].
  apply andb_true_iff in Hp. destruct Hp as [Hid' Hus'].
  apply String.eqb_eq in Hid'. apply String.eqb_eq in Hus'.
  unfold bind, User.findOne, User.jwtTokenById, get, ret, throw. cbn.
  rewrite Hfu. cbn. rewrite Hfj.
  unfold JwtToken.active.
  rewrite (Hact j' Hj' Hid'); [| congruence].
  cbn. rewrite Hu'. reflexivity.
Qed.

(** X2.  The hook reads the store and never writes it: whatever the
    request and whatever the outcome, the store after the hook is the
    store before. *)
Theorem onRequest_leaves_store {jwt : JWTToken.Lib}
    (config : FastifyApp.Config) {Body : Type}
    (request : FastifyRequest.t Body) (w : World) :
  snd (FastifyApp.onRequest config request w) = w.
Proof.
  unfold FastifyApp.onRequest.
  destruct (JS.includes "documentation" (FastifyRequest.url request)
            || JS.includes "health" (FastifyRequest.url request));
    [reflexivity |].
  destruct (FastifyRequest.headers_authorization request) as [[|c s]|];
    try reflexivity.
  destruct (nth_error (JS.split "Bearer " (String c s)) 1) as [[|c' s']|];
    try reflexivity.
  destruct (JWTToken.verify _ _) as [e|claims]; [reflexivity |].
  unfold bind, User.findOne, User.jwtTokenById, get, ret, throw. cbn.
  destruct (find _ (users w)) as [user|]; [| reflexivity].
  destruct (find _ (jwtTokens w)) as [j|]; [| reflexivity].
  destruct (negb (JwtToken.active j)); reflexivity.
Qed.

(** X3.  The user id a handler behind the hook receives is never the
    client's: it is the empty string, when the URL is on the allow-list,
    or else the user id of claims that verified, for a user in the table
    who holds an active credential with the id of the claims. *)
Theorem handler_userId_is_verified {jwt : JWTToken.Lib}
    (config : FastifyApp.Config) {Body : Type}
    (request request' : FastifyRequest.t Body) (w w1 : World) :
  FastifyApp.onRequest config (FastifyApp.decorateRequest request) w
  = (inr request', w1) ->
  w1 = w
  /\ ((gated (FastifyRequest.url request) = false
       /\ FastifyRequest.userId request' = Some EmptyString)
      \/ (gated (FastifyRequest.url request) = true
          /\ exists token claims j,
               bearer request = Some token
               /\ JWTToken.verify (FastifyApp.jwtToken_secret config) token
                  = inr claims
               /\ In (Entity.User.mk (JWTToken.userId claims)) (users w)
               /\ In j (jwtTokens w)
               /\ Entity.JwtToken.id j = JWTToken.id claims
               /\ Entity.JwtToken.user j = JWTToken.userId claims
               /\ Entity.JwtToken.activeFlag j = true
               /\ FastifyRequest.userId request'
                  = Some (JWTToken.userId claims))).
Proof.
  intros Hpass.
  destruct (gated (FastifyRequest.url request)) eqn:Hg.
  - apply onRequest_pass_inv in Hpass; [| exact Hg].
    destruct Hpass
      as (token & claims & j & Hb & Hv & Hu & Hj & Hid & Huser & Hact
          & -> & ->).
    split; [reflexivity | right]. split; [reflexivity |].
    exists token, claims, j. repeat split; assumption.
  - rewrite onRequest_allow_run in Hpass; [| exact Hg].
    injection Hpass as <- <-.
    split; [reflexivity | left]. split; reflexivity.
Qed.

Lemma handler_userId_is_verified_witness :
  FastifyApp.onRequest (jwt := ReferenceJWT.lib) Demo.config
    (FastifyApp.decorateRequest
       (FastifyRequest.mk "req-2" "/user/me" Demo.device1 (Some "9") tt))
    Demo.w_one_session
  = (inr (FastifyRequest.mk "req-2" "/user/me" Demo.device1 (Some "0") tt),
     Demo.w_one_session)
  /\ Demo.w_one_session = Demo.w_one_session
  /\ ((gated "/user/me" = false
       /\ Some "0"%string = Some EmptyString)
      \/ (gated "/user/me" = true
          /\ exists token claims j,
               bearer (FastifyRequest.mk "req-2" "/user/me" Demo.device1
                         (Some "9"%string) tt) = Some token
               /\ ReferenceJWT.verify "secret" token = inr claims
               /\ In (Entity.User.mk (JWTToken.userId claims))
                     (users Demo.w_one_session)
               /\ In j (jwtTokens Demo.w_one_session)
               /\ Entity.JwtToken.id j = JWTToken.id claims
               /\ Entity.JwtToken.user j = JWTToken.userId claims
               /\ Entity.JwtToken.activeFlag j = true
               /\ Some "0"%string = Some (JWTToken.userId claims))).
Proof.
  assert (Hpass :
            FastifyApp.onRequest (jwt := ReferenceJWT.lib) Demo.config
              (FastifyApp.decorateRequest
                 (FastifyRequest.mk "req-2" "/user/me" Demo.device1
                    (Some "9"%string) tt))
              Demo.w_one_session
            = (inr (FastifyRequest.mk "req-2" "/user/me" Demo.device1
                      (Some "0"%string) tt),
               Demo.w_one_session))
    by (vm_compute; reflexivity).
  split; [exact Hpass |].
  exact (handler_userId_is_verified (jwt := ReferenceJWT.lib) Demo.config
           _ _ _ _ Hpass).
Defined.

(** X4.  A request whose URL is off the allow-list goes through the hook
    when its token is not empty and verifies to claims that name a user
    in the table and a credential of this user, the credentials of the
    user with that id being active; the request is handed on with the
    user id of the claims. *)
Theorem onRequest_admits_live_credential {jwt : JWTToken.Lib}
    (config : FastifyApp.Config) {Body : Type}
    (request : FastifyRequest.t Body) (w : World)
    (token : string) (claims : JWTToken.Payload) :
  gated (FastifyRequest.url request) = true ->
  bearer request = Some token ->
  token <> EmptyString ->
  JWTToken.verify (FastifyApp.jwtToken_secret config) token = inr claims ->
  (exists u, In u (users w) /\ Entity.User.id u = JWTToken.userId claims) ->
  (exists j, In j (jwtTokens w)
             /\ Entity.JwtToken.id j = JWTToken.id claims
             /\ Entity.JwtToken.user j = JWTToken.userId claims) ->
  (forall j, In j (jwtTokens w) ->
             Entity.JwtToken.id j = JWTToken.id claims ->
             Entity.JwtToken.user j = JWTToken.userId claims ->
             Entity.JwtToken.activeFlag j = true) ->
  FastifyApp.onRequest config request w
  = (inr (FastifyRequest.set_userId request (JWTToken.userId claims)), w)
  /\ forall (A : Type) (handler : FastifyRequest.t Body -> M A),
       FastifyApp.authenticated config handler request w
       = handler (FastifyRequest.set_userId request (JWTToken.userId claims))
           w.
Proof.
  intros Hg Hb Hne Hv Hu Hj Hact.
  destruct token as [|c s]; [contradiction |].
  split.
  - apply (onRequest_pass_run config request w c s claims); assumption.
  - intros A handler. unfold FastifyApp.authenticated.
    rewrite (bind_run _ _ w w
               (FastifyRequest.set_userId (FastifyApp.decorateRequest request)
                  (JWTToken.userId claims))).
    + reflexivity.
    + apply (onRequest_pass_run config _ w c s claims); assumption.
Qed.

Lemma onRequest_admits_live_credential_witness :
  FastifyApp.onRequest (jwt := ReferenceJWT.lib) Demo.config
    (Demo.request "/user/me" Demo.device2 tt) Demo.w_two_sessions
  = (inr (FastifyRequest.set_userId
            (Demo.request "/user/me" Demo.device2 tt) "0"),
     Demo.w_two_sessions)
  /\ forall (A : Type) (handler : FastifyRequest.t unit -> M A),
       FastifyApp.authenticated (jwt := ReferenceJWT.lib) Demo.config
         handler (Demo.request "/user/me" Demo.device2 tt)
         Demo.w_two_sessions
       = handler
           (FastifyRequest.set_userId
              (Demo.request "/user/me" Demo.device2 tt) "0")
           Demo.w_two_sessions.
Proof.
  apply (onRequest_admits_live_credential (jwt := ReferenceJWT.lib)
           Demo.config (Demo.request "/user/me" Demo.device2 tt)
           Demo.w_two_sessions Demo.token2 Demo.claims2).
  - reflexivity.
  - reflexivity.
  - discriminate.
  - reflexivity.
  - exists (Entity.User.mk "0"). split; [left; reflexivity | reflexivity].
  - exists (Entity.JwtToken.mk "4" true "0").
    split; [right; left; reflexivity | split; reflexivity].
  - intros j [<- | [<- | []]]; [discriminate | reflexivity].
Defined.

(* ================================================================== *)
(** ** More on logout *)

(** X5.  The allow-list does not open the logout route: a logout whose
    URL contains "documentation" or "health" goes through the hook
    unchecked, reaches the handler with an empty user id and is rejected
    there with "Permission denied"; nothing is revoked, whatever header
    the request bears. *)
Theorem logout_on_allow_listed_url_is_denied {jwt : JWTToken.Lib}
    (config : FastifyApp.Config) (request : FastifyRequest.t unit)
    (w : World) :
  gated (FastifyRequest.url request) = false ->
  FastifyApp.authenticated config AuthController.logout request w
  = (inl PermissionDeniedError, w).
Proof.
  intros Hg. unfold FastifyApp.authenticated.
  rewrite (bind_run _ _ w w (FastifyApp.decorateRequest request)).
  - reflexivity.
  - apply onRequest_allow_run. exact Hg.
Qed.

Lemma logout_on_allow_listed_url_is_denied_witness :
  gated "/auth/logout?health" = false
  /\ FastifyApp.authenticated (jwt := ReferenceJWT.lib) Demo.config
       AuthController.logout
       (Demo.request "/auth/logout?health" Demo.device1 tt)
       Demo.w_one_session
     = (inl PermissionDeniedError, Demo.w_one_session).
Proof.
  split; [reflexivity |].
  apply (logout_on_allow_listed_url_is_denied (jwt := ReferenceJWT.lib)
           Demo.config (Demo.request "/auth/logout?health" Demo.device1 tt)
           Demo.w_one_session).
  reflexivity.
Defined.

(** X6.  Behind the hook, logout has three outcomes only: the success
    envelope with the request id, "Permission denied", or the error
    [JWTToken.verify] threw on the token of the request.  The branch
    "User must be" of the handler is never taken: the hook has found the
    user the handler looks up. *)
Theorem logout_route_outcomes {jwt : JWTToken.Lib}
    (config : FastifyApp.Config) (request : FastifyRequest.t unit)
    (w : World) :
  fst (FastifyApp.authenticated config AuthController.logout request w)
  = inr (SuccessResponse.create (FastifyRequest.id request) None)
  \/ fst (FastifyApp.authenticated config AuthController.logout request w)
     = inl PermissionDeniedError
  \/ exists token e,
       bearer request = Some token
       /\ JWTToken.verify (FastifyApp.jwtToken_secret config) token = inl e
       /\ fst (FastifyApp.authenticated config AuthController.logout
                 request w)
          = inl e.
Proof.
  destruct (gated (FastifyRequest.url request)) eqn:Hg.
  - unfold FastifyApp.authenticated, FastifyApp.onRequest, bearer.
    change (FastifyRequest.url (FastifyApp.decorateRequest request))
      with (FastifyRequest.url request).
    change (FastifyRequest.headers_authorization
              (FastifyApp.decorateRequest request))
      with (FastifyRequest.headers_authorization request).
    rewrite (gated_allow _ Hg). unfold bind at 1.
    destruct (FastifyRequest.headers_authorization request) as [[|c s]|];
      try (right; left; reflexivity).
    destruct (nth_error (JS.split "Bearer " (String c s)) 1)
      as [[|c' s']|]; try (right; left; reflexivity).
    destruct (JWTToken.verify _ _) as [e|claims] eqn:Hv.
    + right; right. exists (String c' s'), e. auto.
    + unfold bind, User.findOne, User.jwtTokenById, get, ret, throw. cbn.
      destruct (find _ (users w)) as [user|] eqn:Hfu;
        [| right; left; reflexivity].
      destruct (find _ (jwtTokens w)) as [j|];
        [| right; left; reflexivity].
      destruct (negb (JwtToken.active j)); [right; left; reflexivity |].
      unfold AuthController.logout. cbn.
      destruct (Entity.User.id user) as [|c1 s1] eqn:Hid;
        [right; left; reflexivity |].
      unfold bind, User.findOne, User.logout, get, ret, throw, modify. cbn.
      apply find_some in Hfu. destruct Hfu as [Hin Hp].
      destruct (find_exists
                  (fun u => Entity.User.id u =? String c1 s1) (users w))
        as [u' Hu'].
      { exists user. split; [exact Hin |].
        rewrite Hid. apply String.eqb_refl. }
      rewrite Hu'. left. reflexivity.
  - right; left. unfold FastifyApp.authenticated.
    rewrite (bind_run _ _ w w (FastifyApp.decorateRequest request));
      [reflexivity | apply onRequest_allow_run; exact Hg].
Qed.

(* ================================================================== *)
(** ** More on login *)

(** What a successful login has found, written and answered. *)
Lemma login_ok_exact {jwt : JWTToken.Lib} (this : AuthController.t)
    (request : FastifyRequest.t AuthLoginBody) (w w1 : World)
    (response : SuccessResponse.t) :
  AuthController.login this request w = (inr response, w1) ->
  exists tempToken userEmail me,
    In tempToken (tempTokens w) /\ In userEmail (userEmails w)
    /\ Entity.TempToken.id tempToken
       = login_tempToken (FastifyRequest.body request)
    /\ Entity.TempToken.used tempToken = false
    /\ Entity.UserEmail.value userEmail
       = Entity.TempToken.userEmail tempToken
    /\ Entity.UserEmail.value userEmail
       = login_email (FastifyRequest.body request)
    /\ Entity.UserEmail.main userEmail = true
    /\ In me (userEmails w)
    /\ Entity.UserEmail.user me = Entity.UserEmail.user userEmail
    /\ Entity.UserEmail.main me = true
    /\ w1 = set_users
              (fun l =>
                 if existsb
                      (fun u => Entity.User.id u
                                =? Entity.UserEmail.user userEmail) l
                 then l
                 else l ++ [Entity.User.mk (Entity.UserEmail.user userEmail)])
              (loggedIn (Entity.TempToken.id tempToken)
                 (Entity.UserEmail.user userEmail) w)
    /\ response
       = SuccessResponse.create (FastifyRequest.id request)
           (Some [("token"%string,
                   JWTToken.sign (AuthController.privateKey this)
                     (JWTToken.mkPayload (uuid (nextId w))
                        (Entity.UserEmail.user userEmail)
                        (Entity.UserEmail.value me)))]).
Proof.
  unfold AuthController.login. intros H.
  apply bind_ok in H. destruct H as (found & w0 & Hfind & H).
  unfold TempToken.findOne, bind, get, ret in Hfind.
  injection Hfind as Hfind <-.
  destruct found as [[tempToken userEmail]|]; [| discriminate H].
  apply find_some in Hfind. destruct Hfind as [Hin Hp].
  apply in_withUserEmail in Hin. destruct Hin as (Ht & He & Hown).
  cbn [fst snd] in Hp.
  apply andb_true_iff in Hp. destruct Hp as [Hp Hmain].
  apply andb_true_iff in Hp. destruct Hp as [Hp Hval].
  apply andb_true_iff in Hp. destruct Hp as [Hid Hused].
  apply String.eqb_eq in Hid. apply String.eqb_eq in Hval.
  apply Bool.eqb_prop in Hmain. apply Bool.eqb_prop in Hused.
  cbv zeta in H.
  rewrite (bind_run _ _ _ _ _ (loginByTempToken_run _ tempToken w)) in H.
  cbn [Entity.User.id] in H.
  match type of H with
  | bind (User.save ?u) _ ?w' = _ =>
      rewrite (bind_run (User.save u) _ w'
                 (set_users
                    (fun l =>
                       if existsb
                            (fun x => Entity.User.id x =? Entity.User.id u) l
                       then l else l ++ [u]) w') tt eq_refl) in H
  end.
  cbn [Entity.User.id] in H.
  match type of H with
  | bind (User.lastJwtToken ?u) _ ?w' = _ =>
      rewrite (bind_run (User.lastJwtToken u) _ w' w'
                 (Some (Entity.JwtToken.mk (uuid (nextId w)) true
                          (Entity.UserEmail.user userEmail)))) in H
  end.
  - match type of H with
    | bind (User.mainEmail ?u) _ ?w' = _ =>
        destruct (find (fun e => (Entity.UserEmail.user e =? Entity.User.id u)
                                 && Entity.UserEmail.main e)
                       (userEmails w')) as [me|] eqn:Hme;
        rewrite (bind_run _ _ _ _ _ (mainEmail_run u w' _ Hme)) in H
    end; [| discriminate H].
    injection H as <- <-.
    apply find_some in Hme. destruct Hme as [Hme Hp].
    apply andb_true_iff in Hp. destruct Hp as [Hmu Hmm].
    apply String.eqb_eq in Hmu.
    exists tempToken, userEmail, me.
    repeat (split; [first [assumption | reflexivity] |]). reflexivity.
  - unfold User.lastJwtToken, bind, get, ret.
    cbn [set_users loggedIn jwtTokens].
    rewrite find_last_app_last; [reflexivity |].
    cbn. apply String.eqb_refl.
Qed.

(** X7.  login tells no failure from another: when no unused token with
    the supplied id belongs to the supplied address as a main email -
    unknown id, token already used, token of another address, address not
    main - it throws the one error "There is no unused token with id ..."
    and leaves the store alone. *)
Theorem login_rejections_are_uniform {jwt : JWTToken.Lib}
    (this : AuthController.t)
    (request : FastifyRequest.t AuthLoginBody) (w : World) :
  (forall t e,
      In t (tempTokens w) -> In e (userEmails w) ->
      Entity.UserEmail.value e = Entity.TempToken.userEmail t ->
      Entity.TempToken.id t
      = login_tempToken (FastifyRequest.body request) ->
      Entity.UserEmail.value e = login_email (FastifyRequest.body request) ->
      Entity.TempToken.used t = true \/ Entity.UserEmail.main e = false) ->
  AuthController.login this request w
  = (inl (InvalidTokenError (login_tempToken (FastifyRequest.body request))),
     w).
Proof.
  intros Hnone. apply login_fail_run.
  unfold TempToken.findOne, bind, get, ret.
  rewrite find_none_all; [reflexivity |].
  intros [t e] Hin. apply in_withUserEmail in Hin.
  destruct Hin as (Ht & He & Hown). cbn [fst snd].
  destruct (Entity.TempToken.id t
            =? login_tempToken (FastifyRequest.body request)) eqn:Hid;
    [| reflexivity].
  destruct (Entity.UserEmail.value e
            =? login_email (FastifyRequest.body request)) eqn:Hval;
    [| rewrite andb_false_r; reflexivity].
  apply String.eqb_eq in Hid. apply String.eqb_eq in Hval.
  destruct (Hnone t e Ht He Hown Hid Hval) as [-> | ->];
    [reflexivity | destruct (Entity.TempToken.used t); reflexivity].
Qed.

(** The token of Alice with the address of Bob, then the used token of
    Alice. *)
Lemma login_rejections_are_uniform_witness :
  AuthController.login (jwt := ReferenceJWT.lib) Demo.controller
    (Demo.request "/auth/login" None (mkLoginBody Demo.bob "1"))
    Demo.w_registered
  = (inl (InvalidTokenError "1"), Demo.w_registered)
  /\ AuthController.login (jwt := ReferenceJWT.lib) Demo.controller
       (Demo.request "/auth/login" None (mkLoginBody Demo.alice "1"))
       Demo.w_one_session
     = (inl (InvalidTokenError "1"), Demo.w_one_session).
Proof.
  split.
  - apply (login_rejections_are_uniform (jwt := ReferenceJWT.lib)
             Demo.controller
             (Demo.request "/auth/login" None (mkLoginBody Demo.bob "1"))
             Demo.w_registered).
    intros t e _ [<- | []] _ _ Hval. discriminate Hval.
  - apply (login_rejections_are_uniform (jwt := ReferenceJWT.lib)
             Demo.controller
             (Demo.request "/auth/login" None (mkLoginBody Demo.alice "1"))
             Demo.w_one_session).
    intros t e [<- | []] _ _ _ _. left. reflexivity.
Defined.

(** X8.  A successful login uses the token it was given, opens one new
    active session credential for the user who owns the address of the
    request, and answers with the envelope whose data is the one field
    "token", the signature of the id of that credential, the id of that
    user and the main address of that user.  It sends no message, changes
    no address and leaves every other credential as it was. *)
Theorem login_opens_one_session {jwt : JWTToken.Lib}
    (this : AuthController.t)
    (request : FastifyRequest.t AuthLoginBody) (w w1 : World)
    (response : SuccessResponse.t) :
  AuthController.login this request w = (inr response, w1) ->
  exists owner main,
    In owner (userEmails w)
    /\ Entity.UserEmail.value owner
       = login_email (FastifyRequest.body request)
    /\ Entity.UserEmail.main owner = true
    /\ In main (userEmails w)
    /\ Entity.UserEmail.main main = true
    /\ Entity.UserEmail.user main = Entity.UserEmail.user owner
    /\ response
       = SuccessResponse.create (FastifyRequest.id request)
           (Some [("token"%string,
                   JWTToken.sign (AuthController.privateKey this)
                     (JWTToken.mkPayload (uuid (nextId w))
                        (Entity.UserEmail.user owner)
                        (Entity.UserEmail.value main)))])
    /\ jwtTokens w1
       = jwtTokens w
         ++ [Entity.JwtToken.mk (uuid (nextId w)) true
               (Entity.UserEmail.user owner)]
    /\ tempTokens w1
       = map (fun t =>
                if Entity.TempToken.id t
                   =? login_tempToken (FastifyRequest.body request)
                then Entity.TempToken.mk (Entity.TempToken.id t) true
                       (Entity.TempToken.userEmail t)
                else t) (tempTokens w)
    /\ userEmails w1 = userEmails w
    /\ outbox w1 = outbox w
    /\ nextId w1 = S (nextId w).
Proof.
  intros Hok.
  destruct (login_ok_exact this request w w1 response Hok)
    as (tempToken & userEmail & me & _ & He & Hid & _ & _ & Hval & Hmain
        & Hme & Hmu & Hmm & -> & ->).
  exists userEmail, me.
  repeat (split; [assumption |]).
  split; [reflexivity |].
  cbn [set_users loggedIn jwtTokens tempTokens userEmails outbox nextId].
  rewrite Hid. repeat split.
Qed.

Lemma login_opens_one_session_witness :
  AuthController.login (jwt := ReferenceJWT.lib) Demo.controller
    (Demo.request "/auth/login" None (mkLoginBody Demo.alice "1"))
    Demo.w_registered
  = (inr (SuccessResponse.create "req-1"
            (Some [("token"%string, Demo.token1)])),
     Demo.w_one_session)
  /\ jwtTokens Demo.w_one_session
     = jwtTokens Demo.w_registered ++ [Entity.JwtToken.mk "2" true "0"]
  /\ outbox Demo.w_one_session = outbox Demo.w_registered.
Proof.
  assert (Hok : AuthController.login (jwt := ReferenceJWT.lib)
                  Demo.controller
                  (Demo.request "/auth/login" None
                     (mkLoginBody Demo.alice "1"))
                  Demo.w_registered
                = (inr (SuccessResponse.create "req-1"
                          (Some [("token"%string, Demo.token1)])),
                   Demo.w_one_session))
    by (vm_compute; reflexivity).
  split; [exact Hok |].
  destruct (login_opens_one_session (jwt := ReferenceJWT.lib)
              Demo.controller _ _ _ _ Hok)
    as (owner & main & Ho & _ & _ & _ & _ & _ & _ & Hjwt & _ & _ & Hout
        & _).
  destruct Ho as [<- | []].
  split; [exact Hjwt | exact Hout].
Defined.

(** X9.  In a well-formed store, the token a successful login returns
    opens the routes behind the hook: whenever it verifies to the claims
    it was signed from, a request off the allow-list that bears it goes
    through the hook and reaches the handler with the user id of the
    owner of the address. *)
Theorem login_token_passes_hook {jwt : JWTToken.Lib}
    (this : AuthController.t) (config : FastifyApp.Config)
    (request : FastifyRequest.t AuthLoginBody) (w w1 : World)
    (response : SuccessResponse.t) :
  wf w ->
  AuthController.login this request w = (inr response, w1) ->
  exists claims,
    SuccessResponse.data response
    = Some [("token"%string,
             JWTToken.sign (AuthController.privateKey this) claims)]
    /\ JWTToken.id claims = uuid (nextId w)
    /\ (exists e, In e (userEmails w)
                  /\ Entity.UserEmail.value e
                     = login_email (FastifyRequest.body request)
                  /\ Entity.UserEmail.user e = JWTToken.userId claims)
    /\ (exists m, In m (userEmails w)
                  /\ Entity.UserEmail.main m = true
                  /\ Entity.UserEmail.user m = JWTToken.userId claims
                  /\ Entity.UserEmail.value m = JWTToken.userEmail claims)
    /\ forall (Body : Type) (request' : FastifyRequest.t Body),
         gated (FastifyRequest.url request') = true ->
         bearer request'
         = Some (JWTToken.sign (AuthController.privateKey this) claims) ->
         JWTToken.sign (AuthController.privateKey this) claims
         <> EmptyString ->
         JWTToken.verify (FastifyApp.jwtToken_secret config)
           (JWTToken.sign (AuthController.privateKey this) claims)
         = inr claims ->
         FastifyApp.onRequest config request' w1
         = (inr (FastifyRequest.set_userId request'
                   (JWTToken.userId claims)), w1).
Proof.
  intros Hwf Hok.
  destruct (login_ok_exact this request w w1 response Hok)
    as (tempToken & userEmail & me & _ & He & _ & _ & _ & Hval & _
        & Hme & Hmu & Hmm & -> & ->).
  exists (JWTToken.mkPayload (uuid (nextId w))
            (Entity.UserEmail.user userEmail) (Entity.UserEmail.value me)).
  split; [reflexivity |]. split; [reflexivity |].
  split; [exists userEmail; auto |].
  split; [exists me; auto |].
  intros Body request' Hg Hb Hne Hv.
  destruct (JWTToken.sign _ _) as [|c s] eqn:Hs; [contradiction |].
  apply (onRequest_pass_run config request' _ c s _ Hg Hb Hv);
    cbn [JWTToken.id JWTToken.userId set_users loggedIn users jwtTokens].
  - destruct (existsb _ (users w)) eqn:Hex.
    + apply existsb_exists in Hex. destruct Hex as (u & Hu & Huid).
      apply String.eqb_eq in Huid. exists u. auto.
    + exists (Entity.User.mk (Entity.UserEmail.user userEmail)).
      split; [apply in_or_app; right; left; reflexivity | reflexivity].
  - exists (Entity.JwtToken.mk (uuid (nextId w)) true
              (Entity.UserEmail.user userEmail)).
    split; [apply in_or_app; right; left; reflexivity |].
    split; reflexivity.
  - intros j Hj Hid _. apply in_app_or in Hj. destruct Hj as [Hj | Hj].
    + pose proof (wf_jwts w Hwf) as Hall. rewrite Forall_forall in Hall.
      exfalso. exact (issued_not_next _ _ (Hall j Hj) (eq_sym Hid)).
    + destruct Hj as [<- | []]. reflexivity.
Qed.

Lemma login_token_passes_hook_witness :
  wf Demo.w_registered
  /\ AuthController.login (jwt := ReferenceJWT.lib) Demo.controller
       (Demo.request "/auth/login" None (mkLoginBody Demo.alice "1"))
       Demo.w_registered
     = (inr (SuccessResponse.create "req-1"
               (Some [("token"%string, Demo.token1)])),
        Demo.w_one_session)
  /\ FastifyApp.onRequest (jwt := ReferenceJWT.lib) Demo.config
       (Demo.request "/user/me" Demo.device1 tt) Demo.w_one_session
     = (inr (FastifyRequest.set_userId
               (Demo.request "/user/me" Demo.device1 tt) "0"),
        Demo.w_one_session).
Proof.
  assert (Hok : AuthController.login (jwt := ReferenceJWT.lib)
                  Demo.controller
                  (Demo.request "/auth/login" None
                     (mkLoginBody Demo.alice "1"))
                  Demo.w_registered
                = (inr (SuccessResponse.create "req-1"
                          (Some [("token"%string, Demo.token1)])),
                   Demo.w_one_session))
    by (vm_compute; reflexivity).
  split; [exact wf_w_registered | split; [exact Hok |]].
  destruct (login_token_passes_hook (jwt := ReferenceJWT.lib)
              Demo.controller Demo.config _ _ _ _ wf_w_registered Hok)
    as ([i u a] & _ & Hid & _ & (m & Hm & _ & Hu & Ha) & Hpass).
  cbn in Hid, Hu, Ha. destruct Hm as [<- | []]. cbn in Hu, Ha.
  subst i u a.
  apply (Hpass unit (Demo.request "/user/me" Demo.device1 tt)).
  - reflexivity.
  - reflexivity.
  - discriminate.
  - reflexivity.
Defined.

(* ================================================================== *)
(** ** More on requestToken and register *)

(** requestToken for the main email of a user, with the email it is
    sent to. *)
Lemma requestToken_registered_exact (this : AuthController.t)
    (request : FastifyRequest.t AuthRequestTokenBody) (w : World) :
  isMainEmail (requestToken_email (FastifyRequest.body request)) w ->
  exists me,
    In me (userEmails w) /\ Entity.UserEmail.main me = true
    /\ AuthController.requestToken this request w
       = if EmailSender.accepts (AuthController.emailSender this)
              ("Your token is " ++ uuid (nextId w))
              (Entity.UserEmail.value me)
         then (inr (SuccessResponse.create (FastifyRequest.id request) None),
               sent ("Your token is " ++ uuid (nextId w))
                 (Entity.UserEmail.value me)
                 (issue (Entity.UserEmail.value me) w))
         else (inl DeliveryError, issue (Entity.UserEmail.value me) w).
Proof.
  intros (e & Hin & Hmain & Hval).
  destruct (find_exists
              (fun e => Bool.eqb (Entity.UserEmail.main e) true
                        && (Entity.UserEmail.value e
                            =? requestToken_email
                                 (FastifyRequest.body request)))
              (userEmails w)) as [ue Hue].
  { exists e. split; [exact Hin |].
    rewrite Hmain, Hval, String.eqb_refl. reflexivity. }
  pose proof (find_some _ _ Hue) as [Hue_in Hue_p].
  apply andb_true_iff in Hue_p. destruct Hue_p as [Hue_main _].
  apply Bool.eqb_prop in Hue_main.
  destruct (find_exists
              (fun e => (Entity.UserEmail.user e =? Entity.UserEmail.user ue)
                        && Entity.UserEmail.main e)
              (userEmails w)) as [me Hme].
  { exists ue. split; [exact Hue_in |].
    rewrite Hue_main, String.eqb_refl. reflexivity. }
  pose proof (find_some _ _ Hme) as [Hme_in Hme_p].
  apply andb_true_iff in Hme_p. destruct Hme_p as [_ Hme_main].
  exists me. split; [exact Hme_in | split; [exact Hme_main |]].
  unfold AuthController.requestToken.
  rewrite (bind_run _ _ w w (Some ue));
    [| unfold UserEmail.findOne, bind, get, ret; rewrite Hue; reflexivity].
  cbv zeta.
  pose proof (mainEmail_run (Entity.User.mk (Entity.UserEmail.user ue)) w _ Hme)
    as Hmain_run.
  rewrite (bind_run _ _ _ _ _ (createNewToken_run _ _ _ Hmain_run)).
  rewrite (bind_run _ _ _ _ _ (lastTempToken_issue _ _ _ Hmain_run)).
  rewrite (bind_run _ _ _ (issue (Entity.UserEmail.value me) w) (Some me));
    [| apply mainEmail_run; exact Hme].
  unfold bind. rewrite sendEmail_run. cbn [Entity.TempToken.id].
  destruct (EmailSender.accepts _ _ _); reflexivity.
Qed.

(** The address is a main email, or no main email carries it. *)
Lemma isMainEmail_dec (email : string) (w : World) :
  isMainEmail email w
  \/ (forall e, In e (userEmails w) -> Entity.UserEmail.main e = true ->
                Entity.UserEmail.value e <> email).
Proof.
  destruct (find (fun e => Entity.UserEmail.main e
                           && (Entity.UserEmail.value e =? email))
                 (userEmails w)) as [e|] eqn:Hf.
  - left. apply find_some in Hf. destruct Hf as [Hin Hp].
    apply andb_true_iff in Hp. destruct Hp as [Hm Hv].
    apply String.eqb_eq in Hv. exists e. auto.
  - right. intros e Hin Hm Hv.
    pose proof (find_none _ _ Hf e Hin) as Hp. cbn in Hp.
    rewrite Hm, Hv, String.eqb_refl in Hp. discriminate Hp.
Qed.

(** X10.  requestToken has two outcomes only, the success envelope with
    the request id and the DeliveryError of the email collaborator: for
    any request and any store it never throws "There is no token", and
    it never reads the address of a user without a main email. *)
Theorem requestToken_outcomes (this : AuthController.t)
    (request : FastifyRequest.t AuthRequestTokenBody) (w : World) :
  fst (AuthController.requestToken this request w)
  = inr (SuccessResponse.create (FastifyRequest.id request) None)
  \/ fst (AuthController.requestToken this request w) = inl DeliveryError.
Proof.
  destruct (isMainEmail_dec
              (requestToken_email (FastifyRequest.body request)) w)
    as [Hmain | Hnone].
  - destruct (requestToken_registered_exact this request w Hmain)
      as (me & _ & _ & ->).
    destruct (EmailSender.accepts _ _ _); [left | right]; reflexivity.
  - left. unfold AuthController.requestToken.
    rewrite (bind_run _ _ w w None);
      [reflexivity | apply UserEmail_findOne_absent; exact Hnone].
Qed.

(** What a successful login has found, as [login_succeeds] asks for it. *)
Lemma login_ok_token {jwt : JWTToken.Lib} (this : AuthController.t)
    (request : FastifyRequest.t AuthLoginBody) (w w1 : World)
    (response : SuccessResponse.t) :
  AuthController.login this request w = (inr response, w1) ->
  exists token email,
    In token (tempTokens w) /\ In email (userEmails w)
    /\ Entity.TempToken.id token
       = login_tempToken (FastifyRequest.body request)
    /\ Entity.TempToken.used token = false
    /\ Entity.UserEmail.value email = Entity.TempToken.userEmail token
    /\ Entity.UserEmail.value email
       = login_email (FastifyRequest.body request)
    /\ Entity.UserEmail.main email = true.
Proof.
  intros Hok.
  destruct (login_ok_exact this request w w1 response Hok)
    as (tempToken & userEmail & _ & Ht & He & Hid & Hused & Hown & Hval
        & Hmain & _).
  exists tempToken, userEmail. auto 10.
Qed.

(** X11.  requestToken for the main email of a user issues one new unused
    token for the main email of the user who owns the address of the
    request, whether or not the email collaborator accepts the message,
    and changes no other row: a login with the address the token was
    issued for and the new token succeeds, and every login that would
    have succeeded before still succeeds, the earlier tokens staying
    valid. *)
Theorem requestToken_issues_valid_token {jwt : JWTToken.Lib}
    (this : AuthController.t)
    (request : FastifyRequest.t AuthRequestTokenBody) (w : World) :
  isMainEmail (requestToken_email (FastifyRequest.body request)) w ->
  exists owner main,
    In owner (userEmails w)
    /\ Entity.UserEmail.main owner = true
    /\ Entity.UserEmail.value owner
       = requestToken_email (FastifyRequest.body request)
    /\ In main (userEmails w)
    /\ Entity.UserEmail.main main = true
    /\ Entity.UserEmail.user main = Entity.UserEmail.user owner
    /\ tempTokens (snd (AuthController.requestToken this request w))
       = tempTokens w
         ++ [Entity.TempToken.mk (uuid (nextId w)) false
               (Entity.UserEmail.value main)]
    /\ userEmails (snd (AuthController.requestToken this request w))
       = userEmails w
    /\ jwtTokens (snd (AuthController.requestToken this request w))
       = jwtTokens w
    /\ (forall login_request : FastifyRequest.t AuthLoginBody,
           FastifyRequest.body login_request
           = mkLoginBody (Entity.UserEmail.value main) (uuid (nextId w)) ->
           exists response w2,
             AuthController.login this login_request
               (snd (AuthController.requestToken this request w))
             = (inr response, w2))
    /\ (forall (login_request : FastifyRequest.t AuthLoginBody)
               response w2,
           AuthController.login this login_request w = (inr response, w2) ->
           exists response' w2',
             AuthController.login this login_request
               (snd (AuthController.requestToken this request w))
             = (inr response', w2')).
Proof.
  intros Hmain.
  destruct (requestToken_registered_full this request w Hmain)
    as (owner & me & Ho & Hom & Hov & Hme & Hmm & Hmu & Hrun).
  exists owner, me.
  repeat (split; [assumption |]).
  assert (Hw : tempTokens (snd (AuthController.requestToken this request w))
               = tempTokens w
                 ++ [Entity.TempToken.mk (uuid (nextId w)) false
                       (Entity.UserEmail.value me)]
               /\ userEmails
                    (snd (AuthController.requestToken this request w))
                  = userEmails w
               /\ jwtTokens
                    (snd (AuthController.requestToken this request w))
                  = jwtTokens w).
  { rewrite Hrun. destruct (EmailSender.accepts _ _ _); repeat split. }
  destruct Hw as (Htok & Hem & Hjwt).
  repeat (split; [assumption |]). split.
  - intros login_request Hbody. apply login_succeeds.
    exists (Entity.TempToken.mk (uuid (nextId w)) false
              (Entity.UserEmail.value me)), me.
    rewrite Htok, Hem, Hbody. cbn.
    repeat split; try assumption.
    apply in_or_app; right; left; reflexivity.
  - intros login_request response w2 Hok. apply login_succeeds.
    destruct (login_ok_token this login_request w w2 response Hok)
      as (token & email & Ht & He & Hrest).
    exists token, email. rewrite Htok, Hem.
    split; [apply in_or_app; left; exact Ht | split; [exact He | exact Hrest]].
Qed.

(** Alice asks for a token while the email collaborator fails: the token
    is issued for her address all the same, and she logs in with it. *)
Lemma requestToken_issues_valid_token_witness :
  isMainEmail Demo.alice Demo.w_registered
  /\ tempTokens
       (snd (AuthController.requestToken Demo.offline
               (Demo.request "/auth/request-token" None
                  (mkRequestTokenBody Demo.alice))
               Demo.w_registered))
     = tempTokens Demo.w_registered
       ++ [Entity.TempToken.mk "2" false Demo.alice]
  /\ exists response w2,
       AuthController.login (jwt := ReferenceJWT.lib) Demo.offline
         (Demo.request "/auth/login" None (mkLoginBody Demo.alice "2"))
         (snd (AuthController.requestToken Demo.offline
                 (Demo.request "/auth/request-token" None
                    (mkRequestTokenBody Demo.alice))
                 Demo.w_registered))
       = (inr response, w2).
Proof.
  assert (Hmain : isMainEmail Demo.alice Demo.w_registered).
  { exists (Entity.UserEmail.mk Demo.alice true "0").
    split; [left; reflexivity | split; reflexivity]. }
  split; [exact Hmain |].
  destruct (requestToken_issues_valid_token (jwt := ReferenceJWT.lib)
              Demo.offline
              (Demo.request "/auth/request-token" None
                 (mkRequestTokenBody Demo.alice))
              Demo.w_registered Hmain)
    as (owner & main & _ & _ & _ & Hm & _ & _ & Htok & _ & _ & Hlogin & _).
  destruct Hm as [<- | []].
  split; [exact Htok |].
  apply (Hlogin (Demo.request "/auth/login" None
                   (mkLoginBody Demo.alice "2"))).
  reflexivity.
Defined.

(** X12.  In a well-formed store register has three outcomes only: the
    success envelope with the request id, the conflict error for an
    address that is in the table, or the DeliveryError of the email
    collaborator.  The branch "Something went wrong" is never taken. *)
Theorem register_outcomes (this : AuthController.t)
    (request : FastifyRequest.t AuthRegisterBody) (w : World) :
  wf w ->
  fst (AuthController.register this request w)
  = inr (SuccessResponse.create (FastifyRequest.id request) None)
  \/ fst (AuthController.register this request w)
     = inl (ConflictError (register_email (FastifyRequest.body request)))
  \/ fst (AuthController.register this request w) = inl DeliveryError.
Proof.
  intros Hwf.
  destruct (existsb
              (fun e => Entity.UserEmail.value e
                        =? register_email (FastifyRequest.body request))
              (userEmails w)) eqn:Hnew.
  - right; left. rewrite (register_conflict_run this request w Hnew).
    reflexivity.
  - rewrite (register_fresh_run this request w Hwf Hnew).
    destruct (EmailSender.accepts _ _ _); [left | right; right];
      reflexivity.
Qed.

Lemma register_outcomes_witness :
  wf Demo.w_registered
  /\ (fst (AuthController.register Demo.offline
             (Demo.request "/auth/register" None (mkRegisterBody Demo.bob))
             Demo.w_registered)
      = inr (SuccessResponse.create "req-1" None)
      \/ fst (AuthController.register Demo.offline
                (Demo.request "/auth/register" None
                   (mkRegisterBody Demo.bob))
                Demo.w_registered)
         = inl (ConflictError Demo.bob)
      \/ fst (AuthController.register Demo.offline
                (Demo.request "/auth/register" None
                   (mkRegisterBody Demo.bob))
                Demo.w_registered)
         = inl DeliveryError).
Proof.
  split; [exact wf_w_registered |].
  exact (register_outcomes Demo.offline
           (Demo.request "/auth/register" None (mkRegisterBody Demo.bob))
           Demo.w_registered wf_w_registered).
Defined.



(* ================================================================== *)
(** ** What every history keeps *)

Lemma keepsEmails_ret {A : Type} (a : A) : keepsEmails (ret a).
Proof. intros w. reflexivity. Qed.

Lemma keepsEmails_throw {A : Type} (e : error) : keepsEmails (@throw A e).
Proof. intros w. reflexivity. Qed.

Lemma keepsEmails_bind {A B : Type} (m : M A) (k : A -> M B) :
  keepsEmails m -> (forall a, keepsEmails (k a)) -> keepsEmails (bind m k).
Proof.
  intros Hm Hk w. unfold bind.
  specialize (Hm w). destruct (m w) as [[e|a] w']; cbn in *.
  - exact Hm.
  - rewrite Hk. exact Hm.
Qed.

Lemma keepsEmails_read {A : Type} (f : World -> A) :
  keepsEmails (bind get (fun w => ret (f w))).
Proof. intros w. reflexivity. Qed.

Lemma keepsEmails_save (user : Entity.User.t) : keepsEmails (User.save user).
Proof. intros w. reflexivity. Qed.

Lemma keepsEmails_mainEmail (user : Entity.User.t) :
  keepsEmails (User.mainEmail user).
Proof. intros w. reflexivity. Qed.

Lemma keepsEmails_lastTempToken (user : Entity.User.t) :
  keepsEmails (User.lastTempToken user).
Proof.
  apply keepsEmails_bind; [apply keepsEmails_mainEmail |].
  intros [e|]; intros w; reflexivity.
Qed.

Lemma keepsEmails_createNewToken (user : Entity.User.t) :
  keepsEmails (User.createNewToken user).
Proof.
  apply keepsEmails_bind; [apply keepsEmails_mainEmail |].
  intros [e|]; intros w; reflexivity.
Qed.

Lemma keepsEmails_loginByTempToken (user : Entity.User.t)
    (tempToken : Entity.TempToken.t) :
  keepsEmails (User.loginByTempToken user tempToken).
Proof. intros w. reflexivity. Qed.

Lemma keepsEmails_lastJwtToken (user : Entity.User.t) :
  keepsEmails (User.lastJwtToken user).
Proof. intros w. reflexivity. Qed.

Lemma keepsEmails_logout (user : Entity.User.t) :
  keepsEmails (User.logout user).
Proof. intros w. reflexivity. Qed.

Lemma keepsEmails_jwtTokenById (user : Entity.User.t) (id : string) :
  keepsEmails (User.jwtTokenById user id).
Proof. intros w. reflexivity. Qed.

Lemma keepsEmails_User_findOne (id : string) : keepsEmails (User.findOne id).
Proof. intros w. reflexivity. Qed.

Lemma keepsEmails_UserEmail_findOne (main : bool) (value : string) :
  keepsEmails (UserEmail.findOne main value).
Proof. intros w. reflexivity. Qed.

Lemma keepsEmails_TempToken_findOne (id : string) (used : bool)
    (value : string) (main : bool) :
  keepsEmails (TempToken.findOne id used value main).
Proof. intros w. reflexivity. Qed.

Lemma keepsEmails_sendEmail (sender : EmailSender.t)
    (message email : string) :
  keepsEmails (EmailSender.sendEmail sender message email).
Proof.
  unfold EmailSender.sendEmail.
  destruct (EmailSender.accepts sender message email); intros w; reflexivity.
Qed.

Create HintDb emails.
#[local] Hint Resolve keepsEmails_ret keepsEmails_throw keepsEmails_save
  keepsEmails_mainEmail keepsEmails_lastTempToken keepsEmails_createNewToken
  keepsEmails_loginByTempToken keepsEmails_lastJwtToken keepsEmails_logout
  keepsEmails_jwtTokenById keepsEmails_User_findOne
  keepsEmails_UserEmail_findOne keepsEmails_TempToken_findOne
  keepsEmails_sendEmail : emails.

Ltac emails_step :=
  match goal with
  | |- keepsEmails (bind _ _) => apply keepsEmails_bind; [| intros ?]
  | |- keepsEmails (match ?x with _ => _ end) => destruct x
  | |- keepsEmails (if ?b then _ else _) => destruct b
  | |- keepsEmails (let _ := _ in _) => cbv zeta
  | |- keepsEmails _ => solve [auto with emails]
  end.

Lemma keepsEmails_requestToken (this : AuthController.t)
    (request : FastifyRequest.t AuthRequestTokenBody) :
  keepsEmails (AuthController.requestToken this request).
Proof. unfold AuthController.requestToken. repeat emails_step. Qed.

Lemma keepsEmails_login {jwt : JWTToken.Lib} (this : AuthController.t)
    (request : FastifyRequest.t AuthLoginBody) :
  keepsEmails (AuthController.login this request).
Proof. unfold AuthController.login. repeat emails_step. Qed.

Lemma keepsEmails_logout_route (request : FastifyRequest.t unit) :
  keepsEmails (AuthController.logout request).
Proof. unfold AuthController.logout. repeat emails_step. Qed.

Lemma keepsEmails_onRequest {jwt : JWTToken.Lib}
    (config : FastifyApp.Config) {Body : Type}
    (request : FastifyRequest.t Body) :
  keepsEmails (FastifyApp.onRequest config request).
Proof. unfold FastifyApp.onRequest. repeat emails_step. Qed.

(** register adds no email, or the one address of its request when that
    address is in no row. *)
Lemma register_emails (this : AuthController.t)
    (request : FastifyRequest.t AuthRegisterBody) (w : World) :
  userEmails (snd (AuthController.register this request w)) = userEmails w
  \/ (~ In (register_email (FastifyRequest.body request))
          (map Entity.UserEmail.value (userEmails w))
      /\ exists userId,
           userEmails (snd (AuthController.register this request w))
           = userEmails w
             ++ [Entity.UserEmail.mk
                   (register_email (FastifyRequest.body request)) true
                   userId]).
Proof.
  unfold AuthController.register.
  destruct (existsb
              (fun e => Entity.UserEmail.value e
                        =? register_email (FastifyRequest.body request))
              (userEmails w)) eqn:Hnew.
  - left. rewrite (bind_run _ _ w w true); [reflexivity |].
    unfold UserEmail.checkEmailExist, bind, get, ret. rewrite Hnew.
    reflexivity.
  - right. split.
    + intros Hin. apply in_map_iff in Hin. destruct Hin as (e & Hv & He).
      pose proof (existsb_exists
                    (fun e => Entity.UserEmail.value e
                              =? register_email (FastifyRequest.body request))
                    (userEmails w)) as [_ Hex].
      rewrite Hex in Hnew; [discriminate Hnew |].
      exists e. split; [exact He | apply String.eqb_eq; exact Hv].
    + exists (uuid (nextId w)).
      rewrite (bind_run _ _ w w false);
        [| unfold UserEmail.checkEmailExist, bind, get, ret;
           rewrite Hnew; reflexivity].
      rewrite (bind_run _ _ w
                 (registered (register_email (FastifyRequest.body request)) w)
                 (Entity.User.mk (uuid (nextId w)))); [| reflexivity].
      match goal with
      | |- userEmails (snd (?m ?w')) = _ =>
          assert (Hk : keepsEmails m) by (repeat emails_step);
          rewrite (Hk w')
      end.
      reflexivity.
Qed.

Lemma perform_emails {jwt : JWTToken.Lib} (controller : AuthController.t)
    (config : FastifyApp.Config) (c : call) (w : World) :
  distinctEmails w -> distinctEmails (perform controller config c w).
Proof.
  unfold distinctEmails. intros Hd.
  assert (Hreg : forall request,
             NoDup (map Entity.UserEmail.value
                      (userEmails
                         (snd (AuthController.register controller request
                                 w))))).
  { intros request.
    destruct (register_emails controller request w)
      as [-> | (Hnew & userId & ->)]; [exact Hd |].
    rewrite map_app. cbn [map Entity.UserEmail.value].
    apply NoDup_incl_NoDup with
      (l := register_email (FastifyRequest.body request)
            :: map Entity.UserEmail.value (userEmails w)).
    - constructor; assumption.
    - rewrite length_app. cbn. lia.
    - intros x [<- | Hx]; apply in_or_app.
      + right. left. reflexivity.
      + left. exact Hx. }
  destruct c; cbn [perform].
  - apply Hreg.
  - rewrite register_handler_eq. apply Hreg.
  - rewrite keepsEmails_requestToken. exact Hd.
  - rewrite keepsEmails_login. exact Hd.
  - unfold FastifyApp.authenticated.
    rewrite (keepsEmails_bind _ _ (keepsEmails_onRequest config _)
               (fun r => keepsEmails_logout_route r)).
    exact Hd.
  - unfold FastifyApp.authenticated.
    rewrite (keepsEmails_bind _ _ (keepsEmails_onRequest config _)
               (fun r => keepsEmails_ret tt)).
    exact Hd.
Qed.

(** X14.  An address is never registered twice: register is the one
    request that adds an address, and it adds the address of its request
    only after finding it in no row; so the addresses of a store that are
    pairwise distinct stay pairwise distinct after any history of
    requests. *)
Theorem email_values_stay_distinct {jwt : JWTToken.Lib}
    (controller : AuthController.t) (config : FastifyApp.Config)
    (calls : list call) (w : World) :
  distinctEmails w -> distinctEmails (after controller config calls w).
Proof.
  revert w. induction calls as [|c calls IH]; intros w Hd; cbn.
  - exact Hd.
  - apply IH. apply perform_emails. exact Hd.
Qed.

Lemma email_values_stay_distinct_witness :
  distinctEmails emptyWorld
  /\ distinctEmails
       (after (jwt := ReferenceJWT.lib) Demo.controller Demo.config
          [CallRegister
             (Demo.request "/auth/register" None
                (mkRegisterBody Demo.alice));
           CallRegisterHandler
             (Demo.request "/auth/register" None
                (mkRegisterBody Demo.alice));
           CallRegister
             (Demo.request "/auth/register" None (mkRegisterBody Demo.bob))]
          emptyWorld).
Proof.
  split; [constructor |].
  apply (email_values_stay_distinct (jwt := ReferenceJWT.lib)).
  constructor.
Defined.

(** A credential that is not active stays in the table as it is. *)
Lemma inactive_change (w w' : World) (j : Entity.JwtToken.t) :
  change w w' ->
  In j (jwtTokens w) -> Entity.JwtToken.activeFlag j = false ->
  In j (jwtTokens w').
Proof.
  intros H Hin Hi; destruct H; cbn; try assumption.
  - apply in_or_app; left; assumption.
  - unfold User.revokeAll. apply in_map_iff. exists j.
    split; [| assumption].
    destruct (Entity.JwtToken.user j =? userId); [| reflexivity].
    destruct j; cbn in *; subst; reflexivity.
Qed.

(** X15.  No request reactivates a session credential: a credential that
    is not active is still in the table, as it was, after any history of
    requests. *)
Theorem inactive_credential_stays_inactive {jwt : JWTToken.Lib}
    (controller : AuthController.t) (config : FastifyApp.Config)
    (calls : list call) (w : World) (j : Entity.JwtToken.t) :
  In j (jwtTokens w) -> Entity.JwtToken.activeFlag j = false ->
  In j (jwtTokens (after controller config calls w)).
Proof.
  intros Hin Hi.
  pose proof (after_changes controller config calls w) as Hch.
  induction Hch as [|w1 w2 w3 _ IH Hc].
  - exact Hin.
  - eapply inactive_change; [exact Hc | apply IH; exact Hin | exact Hi].
Qed.

Lemma inactive_credential_stays_inactive_witness :
  In (Entity.JwtToken.mk "2" false "0") (jwtTokens Demo.w_logged_out)
  /\ In (Entity.JwtToken.mk "2" false "0")
        (jwtTokens
           (after (jwt := ReferenceJWT.lib) Demo.controller Demo.config
              [CallRequestToken
                 (Demo.request "/auth/request-token" None
                    (mkRequestTokenBody Demo.alice));
               CallLogin
                 (Demo.request "/auth/login" None
                    (mkLoginBody Demo.alice "3"))]
              Demo.w_logged_out)).
Proof.
  assert (Hin : In (Entity.JwtToken.mk "2" false "0")
                   (jwtTokens Demo.w_logged_out))
    by (left; reflexivity).
  split; [exact Hin |].
  apply (inactive_credential_stays_inactive (jwt := ReferenceJWT.lib)
           Demo.controller Demo.config _ Demo.w_logged_out _ Hin).
  reflexivity.
Defined.
